(** * KITE custodial SDK: transport normalisation and error classification

    A shallow embedding of [src/client.ts] (the [request] transport),
    [src/errors.ts] (the two error classes) and [src/index.ts] (the
    [KiteClient] wrapper and its log filter), followed by the properties
    the specification states about them.

    JavaScript values are an inductive type; the effects of a call (timer,
    console output, the HTTP exchange) are recorded as a trace of events in
    program order; a thrown value is an explicit completion. *)

From Stdlib Require Import String Ascii List ZArith Bool Lia.
From Stdlib Require Import DecimalString.
Import ListNotations.

Set Warnings "-register-all".

Local Open Scope string_scope.
Local Open Scope Z_scope.

(** ** JavaScript values *)

(** The values the SDK touches. Objects are kept as their property list in
    insertion order (the order is observable through [JSON.stringify]); a
    property read returns the first entry of that name. Numbers are the
    integers: the transport never computes with a number, it only tests it
    for truthiness and prints it. *)
Inductive JsValue : Type :=
| JUndefined
| JNull
| JBool (b : bool)
| JNum (n : Z)
| JBigInt (n : Z)
| JStr (s : string)
| JArr (items : list JsValue)
| JObj (props : list (string * JsValue)).

Module Js.

(** ToBoolean. *)
Definition truthy (v : JsValue) : bool :=
  match v with
  | JUndefined | JNull => false
  | JBool b => b
  | JNum n | JBigInt n => negb (n =? 0)
  | JStr s => negb (s =? "")%string
  | JArr _ | JObj _ => true
  end.

(** [v === undefined || v === null]. *)
Definition nullish (v : JsValue) : bool :=
  match v with
  | JUndefined | JNull => true
  | _ => false
  end.

(** [a && b], [a || b], [a ?? b] on values. *)
Definition and (a b : JsValue) : JsValue := if truthy a then b else a.
Definition or (a b : JsValue) : JsValue := if truthy a then a else b.
Definition coalesce (a b : JsValue) : JsValue := if nullish a then b else a.

Fixpoint lookup (k : string) (props : list (string * JsValue)) : option JsValue :=
  match props with
  | [] => None
  | (k', v) :: rest => if (k =? k')%string then Some v else lookup k rest
  end.

(** [v.k] for [v] other than [undefined] and [null], and for a property
    name that is neither an array index nor a member of a built-in
    prototype, as every name the SDK reads is ([error], [success], [status],
    [data], [name], [message], [wallets], [walletId], ...): the read finds
    an own property of an object or yields [undefined]. *)
Definition get (v : JsValue) (k : string) : JsValue :=
  match v with
  | JObj props => match lookup k props with Some x => x | None => JUndefined end
  | _ => JUndefined
  end.

(** [v?.k]. *)
Definition optGet (v : JsValue) (k : string) : JsValue :=
  if nullish v then JUndefined else get v k.

(** [k in v], for [v] an object or an array and [k] as in [get]. *)
Definition has (k : string) (v : JsValue) : bool :=
  match v with
  | JObj props => match lookup k props with Some _ => true | None => false end
  | _ => false
  end.

(** [typeof v === 'string'], [typeof v === 'object'], [Array.isArray(v)]. *)
Definition isString (v : JsValue) : bool :=
  match v with JStr _ => true | _ => false end.

Definition isObject (v : JsValue) : bool :=
  match v with JNull | JArr _ | JObj _ => true | _ => false end.

Definition isArray (v : JsValue) : bool :=
  match v with JArr _ => true | _ => false end.

(** [v === false]. *)
Definition isFalse (v : JsValue) : bool :=
  match v with JBool false => true | _ => false end.

(** [String(n)] for an integer (below 10^21 in magnitude, where
    JavaScript switches to exponent notation). *)
Definition showZ (n : Z) : string := NilZero.string_of_int (Z.to_int n).

Fixpoint join (sep : string) (parts : list string) : string :=
  match parts with
  | [] => ""
  | [p] => p
  | p :: rest => p ++ sep ++ join sep rest
  end.

(** ToString, as a template literal and the [Error] constructor apply it.
    An array prints its elements separated by commas, with [null] and
    [undefined] elements empty; a plain object prints as
    [[object Object]]. *)
Fixpoint ToString (v : JsValue) : string :=
  match v with
  | JUndefined => "undefined"
  | JNull => "null"
  | JBool true => "true"
  | JBool false => "false"
  | JNum n | JBigInt n => showZ n
  | JStr s => s
  | JArr items =>
      join "," (map (fun x => if nullish x then "" else ToString x) items)
  | JObj _ => "[object Object]"
  end.

(** [s.startsWith(p)]. *)
Definition startsWith (p s : string) : bool := String.prefix p s.

End Js.

(** ** Engine built-ins the SDK calls *)

Module Engine.

Definition dquote : ascii := ascii_of_N 34.
Definition backslash : ascii := ascii_of_N 92.

Definition hexLower (n : N) : ascii :=
  ascii_of_N (if (n <? 10)%N then 48 + n else 87 + n)%N.

Definition hexUpper (n : N) : ascii :=
  ascii_of_N (if (n <? 10)%N then 48 + n else 55 + n)%N.

(** A string is held as the bytes of its UTF-8 form; a lone surrogate, which
    UTF-8 proper has no form for, as the three bytes [ED A0..BF 80..BF] of
    its generalised form (a surrogate pair is the four bytes of its code
    point). [isLoneSurrogate c1 c2] tells such a sequence by its first two
    bytes. *)
Definition isLoneSurrogate (c1 c2 : ascii) : bool :=
  ((N_of_ascii c1 =? 237) && (160 <=? N_of_ascii c2) && (N_of_ascii c2 <=? 191))%N.

(** QuoteJSONString, character by character: the quote and the backslash
    are escaped, control characters get their short or [\u00xx] escape. *)
Definition escapeChar (c : ascii) : string :=
  let n := N_of_ascii c in
  if (n =? 34)%N then String backslash (String dquote "")
  else if (n =? 92)%N then String backslash (String backslash "")
  else if (n =? 8)%N then String backslash "b"
  else if (n =? 9)%N then String backslash "t"
  else if (n =? 10)%N then String backslash "n"
  else if (n =? 12)%N then String backslash "f"
  else if (n =? 13)%N then String backslash "r"
  else if (n <? 32)%N then
    String backslash ("u00" ++ String (hexLower (n / 16)) (String (hexLower (n mod 16)) ""))
  else String c "".

(** The [\udxxx] escape of the lone surrogate whose second and third bytes
    are [c2] and [c3]. *)
Definition escapeSurrogate (c2 c3 : ascii) : string :=
  let n2 := (N_of_ascii c2 mod 64)%N in
  let n3 := (N_of_ascii c3 mod 64)%N in
  String backslash
    ("ud" ++ String (hexLower (n2 / 4))
               (String (hexLower ((n2 mod 4) * 4 + n3 / 16))
                  (String (hexLower (n3 mod 16)) ""))).

Fixpoint escapeChars (s : string) : string :=
  match s with
  | EmptyString => ""
  | String c1 rest =>
      match rest with
      | String c2 (String c3 rest') =>
          if isLoneSurrogate c1 c2
          then escapeSurrogate c2 c3 ++ escapeChars rest'
          else escapeChar c1 ++ escapeChars rest
      | _ => escapeChar c1 ++ escapeChars rest
      end
  end.

Definition quote (s : string) : string :=
  String dquote (escapeChars s) ++ String dquote "".

(** [JSON.stringify(v)]. The outer [None] is the [TypeError] the engine
    throws on a BigInt; the inner [None] is the result [undefined] (a value
    that has no JSON text). In an array [undefined] prints as [null]; in an
    object a property whose value is [undefined] is left out. *)
Fixpoint JSON_stringify (v : JsValue) : option (option string) :=
  match v with
  | JUndefined => Some None
  | JNull => Some (Some "null")
  | JBool true => Some (Some "true")
  | JBool false => Some (Some "false")
  | JNum n => Some (Some (Js.showZ n))
  | JBigInt _ => None
  | JStr s => Some (Some (quote s))
  | JArr items =>
      match
        (fix elems (l : list JsValue) : option (list string) :=
           match l with
           | [] => Some []
           | x :: rest =>
               match JSON_stringify x, elems rest with
               | Some t, Some ts =>
                   Some (match t with Some s => s | None => "null" end :: ts)
               | _, _ => None
               end
           end) items
      with
      | Some parts => Some (Some ("[" ++ Js.join "," parts ++ "]"))
      | None => None
      end
  | JObj props =>
      match
        (fix members (l : list (string * JsValue)) : option (list string) :=
           match l with
           | [] => Some []
           | (k, x) :: rest =>
               match JSON_stringify x, members rest with
               | Some t, Some ts =>
                   Some (match t with
                         | Some s => (quote k ++ ":" ++ s) :: ts
                         | None => ts
                         end)
               | _, _ => None
               end
           end) props
      with
      | Some parts => Some (Some ("{" ++ Js.join "," parts ++ "}"))
      | None => None
      end
  end.

(** The characters [encodeURIComponent] leaves as they are. *)
Definition unreserved (c : ascii) : bool :=
  let n := N_of_ascii c in
  ((65 <=? n) && (n <=? 90) || (97 <=? n) && (n <=? 122) || (48 <=? n) && (n <=? 57)
   || (n =? 45) || (n =? 95) || (n =? 46) || (n =? 33) || (n =? 126)
   || (n =? 42) || (n =? 39) || (n =? 40) || (n =? 41))%N.

(** [encodeURIComponent(s)]: every byte that is not unreserved becomes
    [%XX]; [None] is the [URIError] thrown when [s] holds a lone
    surrogate. *)
Fixpoint encodeURIComponent (s : string) : option string :=
  match s with
  | EmptyString => Some ""
  | String c rest =>
      if match rest with
         | String c2 _ => isLoneSurrogate c c2
         | EmptyString => false
         end
      then None
      else
        match encodeURIComponent rest with
        | Some encoded =>
            Some ((if unreserved c then String c ""
                   else
                     let n := N_of_ascii c in
                     String "%" (String (hexUpper (n / 16))
                                   (String (hexUpper (n mod 16)) "")))
                  ++ encoded)
        | None => None
        end
  end.

(** White space and line terminators, by the bytes of their UTF-8 form:
    TAB, LF, VT, FF, CR and the space; *)
Definition isSpace (c : ascii) : bool :=
  let n := N_of_ascii c in
  ((n =? 32) || (9 <=? n) && (n <=? 13))%N.

(** U+00A0; *)
Definition isSpace2 (c1 c2 : ascii) : bool :=
  ((N_of_ascii c1 =? 194) && (N_of_ascii c2 =? 160))%N.

(** U+1680, U+2000 to U+200A, U+2028, U+2029, U+202F, U+205F, U+3000 and
    U+FEFF. *)
Definition isSpace3 (c1 c2 c3 : ascii) : bool :=
  let n1 := N_of_ascii c1 in
  let n2 := N_of_ascii c2 in
  let n3 := N_of_ascii c3 in
  ((n1 =? 225) && (n2 =? 154) && (n3 =? 128)
   || (n1 =? 226) && (n2 =? 128)
      && ((128 <=? n3) && (n3 <=? 138) || (n3 =? 168) || (n3 =? 169) || (n3 =? 175))
   || (n1 =? 226) && (n2 =? 129) && (n3 =? 159)
   || (n1 =? 227) && (n2 =? 128) && (n3 =? 128)
   || (n1 =? 239) && (n2 =? 187) && (n3 =? 191))%N.

Fixpoint trimStart (s : string) : string :=
  match s with
  | EmptyString => ""
  | String c1 rest1 =>
      if isSpace c1 then trimStart rest1
      else
        match rest1 with
        | EmptyString => s
        | String c2 rest2 =>
            if isSpace2 c1 c2 then trimStart rest2
            else
              match rest2 with
              | EmptyString => s
              | String c3 rest3 =>
                  if isSpace3 c1 c2 c3 then trimStart rest3 else s
              end
        end
  end.

(** Nothing but white space is left from here on. *)
Definition isBlank (s : string) : bool := (trimStart s =? "")%string.

Fixpoint trimEnd (s : string) : string :=
  match s with
  | EmptyString => ""
  | String c rest => if isBlank s then "" else String c (trimEnd rest)
  end.

(** [s.trim()]. *)
Definition trim (s : string) : string := trimEnd (trimStart s).

(** [s.replace(/\/$/, '')]: one trailing slash is dropped. *)
Fixpoint stripTrailingSlash (s : string) : string :=
  match s with
  | EmptyString => ""
  | String c rest =>
      if (N_of_ascii c =? 47)%N && (rest =? "")%string then ""
      else String c (stripTrailingSlash rest)
  end.

End Engine.

(** ** errors.ts *)

Module KiteApiError.

(** The fields the constructor copies from its [details] argument; an
    optional field that was not given is [JUndefined]. [statusCode] is
    declared a number, but [request] stores whatever the envelope's
    [status] holds, so it is a value here. *)
Record t : Type := new {
  statusCode : JsValue;
  message : string;
  code : JsValue;
  raw : JsValue
}.

(** The four classifiers compare [this.statusCode], which the class
    declares a number; they are given on the number the field holds. *)

(** [statusCode >= 400 && statusCode < 500]. *)
Definition isClientError (statusCode : Z) : bool :=
  (400 <=? statusCode) && (statusCode <? 500).

(** [statusCode >= 500]. *)
Definition isServerError (statusCode : Z) : bool := 500 <=? statusCode.

(** [statusCode === 401 || statusCode === 403]. *)
Definition isAuthError (statusCode : Z) : bool :=
  (statusCode =? 401) || (statusCode =? 403).

(** [statusCode === 404]. *)
Definition isNotFound (statusCode : Z) : bool := statusCode =? 404.

End KiteApiError.

Module KiteNetworkError.

Record t : Type := new {
  message : string;
  cause : JsValue
}.

End KiteNetworkError.

(** ** Completions and effects *)

(** What a [throw] can carry in this SDK. [TypeError] and [URIError] are
    raised by the engine ([JSON.stringify] on a BigInt, a property read on
    [null] or [undefined]; [encodeURIComponent] on a lone surrogate),
    [Error] by the [KiteClient] constructor. *)
Inductive Thrown : Type :=
| ApiError (e : KiteApiError.t)
| NetworkError (e : KiteNetworkError.t)
| TypeError (message : string)
| URIError (message : string)
| Error (message : string).

Inductive Completion (A : Type) : Type :=
| Return (a : A)
| Throw (e : Thrown).

Arguments Return {A} a.
Arguments Throw {A} e.

Inductive LogLevel : Type := debug | info | warn | error.

(** The [console] method a log line goes to. *)
Inductive ConsoleMethod : Type := console_log | console_info | console_warn | console_error.

Record RequestInit : Type := {
  init_method : string;
  init_headers : list (string * string);
  init_body : option string
}.

(** What the transport reads of a [Response]. *)
Record Response : Type := {
  status : Z;
  statusText : string
}.

(** [response.ok], which the Fetch standard defines as a status in the
    range 200 to 299. *)
Definition ok (r : Response) : bool := (200 <=? status r) && (status r <=? 299).

(** How the awaited part of [request] ends: [fetch] or [response.text()]
    rejects with [err], or a response arrives and its body text is read. *)
Inductive Exchange : Type :=
| Rejected (err : JsValue)
| Settled (response : Response) (responseText : string).

(** The observable steps of a call, in program order. *)
Inductive Event : Type :=
| SetTimeout (ms : Z)
| ClearTimeout
| Fetch (url : string) (init : RequestInit)
| Console (out : ConsoleMethod) (text : string).

(** A computation: the events it performed and how it completed. *)
Definition Eff (A : Type) : Type := (list Event * Completion A)%type.

Definition ret {A} (a : A) : Eff A := ([], Return a).

Definition throw {A} (e : Thrown) : Eff A := ([], Throw e).

Definition emit (evs : list Event) : Eff unit := (evs, Return tt).

Definition bind {A B} (m : Eff A) (k : A -> Eff B) : Eff B :=
  match m with
  | (evs, Return a) => let (evs', c) := k a in ((evs ++ evs')%list, c)
  | (evs, Throw e) => (evs, Throw e)
  end.

Declare Scope eff_scope.
Delimit Scope eff_scope with eff.

Notation "x <- m ;; k" := (bind m (fun x => k))
  (at level 100, m at next level, right associativity) : eff_scope.
Notation "m ;; k" := (bind m (fun _ => k))
  (at level 100, right associativity) : eff_scope.

Definition trace {A} (m : Eff A) : list Event := fst m.
Definition completion {A} (m : Eff A) : Completion A := snd m.

(** ** client.ts *)

Record RequestConfig : Type := {
  baseUrl : string;
  apiKey : string;
  timeout : Z;
  logLevel : LogLevel;
  (** The sink: the events a call [log(level, message)] performs. *)
  log : LogLevel -> string -> list Event
}.

Section Transport.

(** [JSON.parse]: [None] when it throws a [SyntaxError]. *)
Variable JSON_parse : string -> option JsValue.

(** The network: how [await fetch(url, init)] followed by
    [await response.text()] ends. *)
Variable fetch : string -> RequestInit -> Exchange.

Definition safeJsonParse (body : string) : JsValue :=
  match JSON_parse body with
  | Some v => v
  | None => JNull
  end.

Local Open Scope eff_scope.

(** [request(config, method, path, body)]; an omitted [body] is
    [JUndefined]. A message is held as the string that the template
    literals and the [Error] constructor make of it (ToString). The
    [AbortController] shows only through its timer. *)
Definition request (config : RequestConfig) (method path : string) (body : JsValue)
  : Eff JsValue :=
  let url := Engine.stripTrailingSlash (baseUrl config) ++ path in
  emit [SetTimeout (timeout config)] ;;
  let headers :=
    [("Content-Type", "application/json"); ("X-API-Key", apiKey config)] in
  initBody <-
    (if negb (Js.nullish body) && negb (method =? "GET")%string then
       match Engine.JSON_stringify body with
       | Some text => ret text
       | None => throw (TypeError "Do not know how to serialize a BigInt")
       end
     else ret None) ;;
  let init :=
    {| init_method := method; init_headers := headers; init_body := initBody |} in
  emit (log config debug (method ++ " " ++ url)) ;;
  emit [Fetch url init] ;;
  match fetch url init with
  | Rejected err =>
      emit [ClearTimeout] ;;
      let isAbort :=
        match Js.optGet err "name" with
        | JStr n => (n =? "AbortError")%string
        | _ => false
        end in
      let message :=
        if isAbort
        then "Request timed out after " ++ Js.showZ (timeout config) ++ "ms"
        else Js.ToString (Js.or (Js.optGet err "message") (JStr "Network request failed")) in
      emit (log config error message) ;;
      throw (NetworkError (KiteNetworkError.new message err))
  | Settled response responseText =>
      emit [ClearTimeout] ;;
      let data := safeJsonParse responseText in
      let statusCode := status response in
      if negb (ok response) then
        let message :=
          Js.ToString
            (Js.or
               (Js.or
                  (Js.and
                     (Js.and data (JBool (Js.isString (Js.get data "error"))))
                     (Js.get data "error"))
                  (JStr (statusText response)))
               (JStr ("Request failed with status " ++ Js.showZ statusCode))) in
        emit (log config warn (Js.showZ statusCode ++ " " ++ path ++ ": " ++ message)) ;;
        throw (ApiError
                 (KiteApiError.new (JNum statusCode) message JUndefined
                    (Js.coalesce data (JStr responseText))))
      else if Js.truthy data && Js.isFalse (Js.get data "success") then
        let message :=
          match Js.get data "error" with
          | JStr e => e
          | _ => "Request failed"
          end in
        emit (log config warn (Js.showZ statusCode ++ " " ++ path ++ ": " ++ message)) ;;
        throw (ApiError
                 (KiteApiError.new (Js.coalesce (Js.get data "status") (JNum statusCode))
                    message JUndefined data))
      else if Js.truthy data && Js.isObject data && Js.has "data" data then
        ret (Js.coalesce (Js.get data "data") data)
      else
        ret (Js.coalesce data (JObj []))
  end.

End Transport.

(** ** index.ts *)

Definition LOG_LEVELS (level : LogLevel) : Z :=
  match level with
  | debug => 0
  | info => 1
  | warn => 2
  | error => 3
  end.

Module SdkConfiguration.

(** An option that was not given is [None]. *)
Record t : Type := {
  baseUrl : option string;
  apiKey : option string;
  logLevel : option LogLevel;
  timeout : option Z
}.

End SdkConfiguration.

Module KiteClient.

Record t : Type := { config : RequestConfig }.

(** The [log] closure the constructor stores in [this.config]. *)
Definition log (logLevel level : LogLevel) (message : string) : list Event :=
  if LOG_LEVELS level <=? LOG_LEVELS logLevel then
    let out :=
      match level with
      | debug => console_log
      | info => console_info
      | warn => console_warn
      | error => console_error
      end in
    [Console out ("[KiteSDK] " ++ message)]
  else [].

Definition constructor (config : SdkConfiguration.t) : Completion t :=
  let baseUrl := option_map Engine.trim (SdkConfiguration.baseUrl config) in
  let apiKey := option_map Engine.trim (SdkConfiguration.apiKey config) in
  match baseUrl with
  | None | Some EmptyString => Throw (Error "KiteClient: baseUrl is required")
  | Some baseUrl =>
      match apiKey with
      | None | Some EmptyString => Throw (Error "KiteClient: apiKey is required")
      | Some apiKey =>
          let logLevel :=
            match SdkConfiguration.logLevel config with Some l => l | None => info end in
          let timeout :=
            match SdkConfiguration.timeout config with Some ms => ms | None => 30000 end in
          Return
            {| config := Build_RequestConfig baseUrl apiKey timeout logLevel (log logLevel) |}
      end
  end.

(** [new KiteApiError({ statusCode: 400, message })], the error of a
    rejected argument. *)
Definition badRequest (message : string) : Thrown :=
  ApiError (KiteApiError.new (JNum 400) message JUndefined JUndefined).

Section Methods.

Variable JSON_parse : string -> option JsValue.
Variable fetch : string -> RequestInit -> Exchange.

Local Open Scope eff_scope.

Definition req (this : t) (method path : string) (body : JsValue) : Eff JsValue :=
  request JSON_parse fetch (config this) method path body.

Definition healthCheck (this : t) : Eff JsValue :=
  data <- req this "GET" "/health" JUndefined ;;
  ret (Js.coalesce data
         (JObj [("status", JStr "unknown"); ("service", JStr "kite-custody-orchestrator")])).

(** [params.key], for the first property a method reads of its [params]
    argument: the read throws a [TypeError] when [params] is [null] or
    [undefined]. Later reads of the same argument are [Js.get]. *)
Definition read (params : JsValue) (key : string) : Eff JsValue :=
  if Js.nullish params then
    throw (TypeError ("Cannot read properties of " ++ Js.ToString params
                      ++ " (reading '" ++ key ++ "')"))
  else ret (Js.get params key).

(** [encodeURIComponent(v)]: the text, or the [URIError] of a lone
    surrogate. *)
Definition encode (v : JsValue) : Eff string :=
  match Engine.encodeURIComponent (Js.ToString v) with
  | Some text => ret text
  | None => throw (URIError "URI malformed")
  end.

Definition createWallet (this : t) (params : JsValue) : Eff JsValue :=
  userEmail <- read params "userEmail" ;;
  data <- req this "POST" "/api/wallets" (JObj [("userEmail", userEmail)]) ;;
  ret data.

Definition listWallets (this : t) : Eff JsValue :=
  data <- req this "GET" "/api/wallets" JUndefined ;;
  if Js.isArray (Js.get data "wallets") then
    ret (JObj [("wallets", Js.get data "wallets"); ("count", Js.get data "count")])
  else if Js.isArray (Js.optGet (Js.get data "data") "wallets") then
    ret (JObj [("wallets", Js.get (Js.get data "data") "wallets");
               ("count", Js.optGet (Js.get data "data") "count")])
  else ret (JObj [("wallets", JArr []); ("count", JNum 0)]).

Definition getWallet (this : t) (walletId : JsValue) : Eff JsValue :=
  if negb (Js.truthy walletId) || negb (Js.isString walletId) then
    throw (badRequest "walletId is required and must be a string")
  else
    segment <- encode walletId ;;
    data <- req this "GET" ("/api/wallets/" ++ segment) JUndefined ;;
    ret (Js.coalesce (Js.get data "data") data).

Definition getWalletsByUser (this : t) (email : JsValue) : Eff JsValue :=
  if negb (Js.truthy email) || negb (Js.isString email) then
    throw (badRequest "email is required and must be a string")
  else
    segment <- encode email ;;
    data <- req this "GET" ("/api/wallets/users/" ++ segment ++ "/wallets") JUndefined ;;
    ret data.

Definition listUsers (this : t) : Eff JsValue :=
  data <- req this "GET" "/api/users" JUndefined ;;
  if Js.isArray (Js.get data "users") then
    ret (JObj [("users", Js.get data "users"); ("count", Js.get data "count")])
  else if Js.isArray (Js.optGet (Js.get data "data") "users") then
    ret (JObj [("users", Js.get (Js.get data "data") "users");
               ("count", Js.optGet (Js.get data "data") "count")])
  else ret (JObj [("users", JArr []); ("count", JNum 0)]).

Definition getUser (this : t) (email : JsValue) : Eff JsValue :=
  if negb (Js.truthy email) || negb (Js.isString email) then
    throw (badRequest "email is required and must be a string")
  else
    segment <- encode email ;;
    data <- req this "GET" ("/api/users/" ++ segment) JUndefined ;;
    ret (Js.coalesce (Js.get data "data") data).

Definition getNonce (this : t) (params : JsValue) : Eff JsValue :=
  read params "walletId" ;;
  let p := Js.get params in
  if negb (Js.truthy (p "walletId")) || negb (Js.truthy (p "rpcUrl")) then
    throw (badRequest "walletId and rpcUrl are required")
  else
    req this "POST" "/api/transactions/nonce"
      (JObj [("walletId", p "walletId"); ("rpcUrl", p "rpcUrl")]).

Definition getGasPrices (this : t) (params : JsValue) : Eff JsValue :=
  read params "rpcUrl" ;;
  let p := Js.get params in
  if negb (Js.truthy (p "rpcUrl")) then
    throw (badRequest "rpcUrl is required")
  else
    req this "POST" "/api/transactions/gas-prices"
      (JObj [("rpcUrl", p "rpcUrl");
             ("transactionType", p "transactionType");
             ("transaction", p "transaction")]).

Definition getGasPrice (this : t) (params : JsValue) : Eff JsValue :=
  read params "rpcUrl" ;;
  let p := Js.get params in
  if negb (Js.truthy (p "rpcUrl")) then
    throw (badRequest "rpcUrl is required")
  else
    req this "POST" "/api/transactions/gas-price"
      (JObj [("rpcUrl", p "rpcUrl");
             ("transactionType", p "transactionType");
             ("transaction", p "transaction")]).

(** [v !== undefined && ![0, 1, 2].includes(v)]. *)
Definition badTransactionType (v : JsValue) : bool :=
  match v with
  | JUndefined => false
  | JNum n => negb ((n =? 0) || (n =? 1) || (n =? 2))
  | _ => true
  end.

Definition createNativeTransfer (this : t) (params : JsValue) : Eff JsValue :=
  read params "walletId" ;;
  let p := Js.get params in
  if negb (Js.truthy (p "walletId")) || negb (Js.truthy (p "rpcUrl"))
     || negb (Js.truthy (p "to")) then
    throw (badRequest "walletId, rpcUrl, and to are required")
  else if badTransactionType (p "transactionType") then
    throw (badRequest "transactionType must be 0, 1 (Legacy), or 2 (EIP-1559) if provided")
  else
    req this "POST" "/api/transactions/native"
      (JObj [("walletId", p "walletId");
             ("rpcUrl", p "rpcUrl");
             ("to", p "to");
             ("value", p "value");
             ("tokenAddress", p "tokenAddress");
             ("transactionType", p "transactionType");
             ("gasData", p "gasData");
             ("nonce", p "nonce")]).

Definition createERC20Transfer (this : t) (params : JsValue) : Eff JsValue :=
  read params "walletId" ;;
  let p := Js.get params in
  if negb (Js.truthy (p "walletId")) || negb (Js.truthy (p "rpcUrl"))
     || negb (Js.truthy (p "tokenAddress")) || negb (Js.truthy (p "to"))
     || Js.nullish (p "amount") then
    throw (badRequest "walletId, rpcUrl, tokenAddress, to, and amount are required")
  else if badTransactionType (p "transactionType") then
    throw (badRequest "transactionType must be 0, 1 (Legacy), or 2 (EIP-1559) if provided")
  else
    req this "POST" "/api/transactions/erc20"
      (JObj [("walletId", p "walletId");
             ("rpcUrl", p "rpcUrl");
             ("tokenAddress", p "tokenAddress");
             ("to", p "to");
             ("amount", p "amount");
             ("transactionType", p "transactionType");
             ("gasData", p "gasData");
             ("nonce", p "nonce")]).

Definition signTransaction (this : t) (params : JsValue) : Eff JsValue :=
  read params "walletId" ;;
  let p := Js.get params in
  if negb (Js.truthy (p "walletId")) || negb (Js.isString (p "walletId")) then
    throw (badRequest "walletId is required and must be a string")
  else if negb (Js.truthy (p "unsignedRaw")) || negb (Js.isString (p "unsignedRaw"))
          || negb (Js.startsWith "0x" (Js.ToString (p "unsignedRaw"))) then
    throw (badRequest
             "unsignedRaw is required and must be a valid hex string starting with 0x")
  else
    data <- req this "POST" "/api/transactions/sign"
              (JObj [("walletId", p "walletId");
                     ("unsignedRaw", p "unsignedRaw");
                     ("transaction", p "transaction")]) ;;
    ret data.

Definition broadcastTransaction (this : t) (params : JsValue) : Eff JsValue :=
  read params "signedHex" ;;
  let p := Js.get params in
  if negb (Js.truthy (p "signedHex")) || negb (Js.isString (p "signedHex")) then
    throw (badRequest "signedHex is required and must be a string")
  else if negb (Js.truthy (p "rpcUrl")) || negb (Js.isString (p "rpcUrl")) then
    throw (badRequest "rpcUrl is required and must be a string")
  else
    req this "POST" "/api/transactions/broadcast"
      (JObj [("signedHex", p "signedHex"); ("rpcUrl", p "rpcUrl")]).

End Methods.

End KiteClient.

(** ** The parts of a call, named for the statements below *)

(** [url], as [request] computes it. *)
Definition requestUrl (config : RequestConfig) (path : string) : string :=
  Engine.stripTrailingSlash (baseUrl config) ++ path.

(** [init.body], as [request] computes it: [None] when [JSON.stringify]
    throws, [Some None] when no body is sent. *)
Definition requestBody (method : string) (body : JsValue) : option (option string) :=
  if negb (Js.nullish body) && negb (method =? "GET")%string
  then Engine.JSON_stringify body
  else Some None.

(** [init], as [request] passes it to [fetch]. *)
Definition requestInit (config : RequestConfig) (method : string) (text : option string)
  : RequestInit :=
  {| init_method := method;
     init_headers := [("Content-Type", "application/json"); ("X-API-Key", apiKey config)];
     init_body := text |}.

(** The three outcomes the specification allows a call. *)
Definition returnsPayload (c : Completion JsValue) : Prop := exists v, c = Return v.
Definition throwsApiError (c : Completion JsValue) : Prop := exists e, c = Throw (ApiError e).
Definition throwsNetworkError (c : Completion JsValue) : Prop :=
  exists e, c = Throw (NetworkError e).

Definition exactlyOne (P Q R : Prop) : Prop :=
  (P /\ ~ Q /\ ~ R) \/ (~ P /\ Q /\ ~ R) \/ (~ P /\ ~ Q /\ R).

Definition oneOfThreeOutcomes (c : Completion JsValue) : Prop :=
  exactlyOne (returnsPayload c) (throwsApiError c) (throwsNetworkError c).

(** The trace shows an HTTP exchange in which the service answered. *)
Definition serviceResponded (fetch : string -> RequestInit -> Exchange)
  (events : list Event) (response : Response) (responseText : string) : Prop :=
  exists url init,
    In (Fetch url init) events /\ fetch url init = Settled response responseText.

(** The answer carries a failure signal: an HTTP status outside 2xx, or
    [success: false] in a parsed body. *)
Definition failureSignal (JSON_parse : string -> option JsValue)
  (response : Response) (responseText : string) : Prop :=
  ok response = false
  \/ Js.get (safeJsonParse JSON_parse responseText) "success" = JBool false.

(** Where a [KiteApiError] comes from: an answer of the service that
    carries a failure signal, or an argument rejected with status 400
    before the call has performed any event. *)
Definition fromServiceOrArgument (JSON_parse : string -> option JsValue)
  (fetch : string -> RequestInit -> Exchange) (run : Eff JsValue) : Prop :=
  forall e,
    completion run = Throw (ApiError e) ->
    (exists response responseText,
        serviceResponded fetch (trace run) response responseText
        /\ failureSignal JSON_parse response responseText)
    \/ (trace run = [] /\ KiteApiError.statusCode e = JNum 400).

(** ** What [request] computes, in closed form *)

(** [response.statusText || `Request failed with status ${statusCode}`]. *)
Definition statusLine (response : Response) : string :=
  if (statusText response =? "")%string
  then "Request failed with status " ++ Js.showZ (status response)
  else statusText response.

(** The message of the error thrown for a status outside 2xx: the [error]
    field of the parsed body when it is a string other than the empty one,
    else the status line. *)
Definition httpErrorMessage (data : JsValue) (response : Response) : string :=
  match Js.get data "error" with
  | JStr e => if (e =? "")%string then statusLine response else e
  | _ => statusLine response
  end.

(** The message of the error thrown for [success: false]. *)
Definition declaredMessage (data : JsValue) : string :=
  match Js.get data "error" with
  | JStr e => e
  | _ => "Request failed"
  end.

(** The value returned on success: the [data] field of an object that has
    one, unless it is [null]; an empty object for [null] (a body that did
    not parse, or the text [null]); the parsed body otherwise. *)
Definition unwrap (data : JsValue) : JsValue :=
  match data with
  | JObj props =>
      match Js.lookup "data" props with
      | Some x => if Js.nullish x then data else x
      | None => data
      end
  | JUndefined | JNull => JObj []
  | _ => data
  end.

(** [err?.name === 'AbortError']: the rejection is the cancellation timer
    firing. *)
Definition isAbort (err : JsValue) : bool :=
  match Js.optGet err "name" with
  | JStr n => (n =? "AbortError")%string
  | _ => false
  end.

(** The message of the error thrown when the exchange is rejected. *)
Definition networkMessage (timeout : Z) (err : JsValue) : string :=
  if isAbort err
  then "Request timed out after " ++ Js.showZ timeout ++ "ms"
  else if Js.truthy (Js.optGet err "message") then Js.ToString (Js.optGet err "message")
  else "Network request failed".

(** ** The specification's wording, as functions *)

Module Spec.

(** "the envelope's error field if it is a string, else the response status
    text, else a fallback string embedding the numeric status", for the
    result [parsed] of parsing the body. *)
Definition httpErrorMessage (parsed : option JsValue) (response : Response) : string :=
  match parsed with
  | Some (JObj props) =>
      match Js.lookup "error" props with
      | Some (JStr e) => e
      | _ => statusLine response
      end
  | _ => statusLine response
  end.

(** "the parsed envelope if parsing succeeded, else the raw response
    text". *)
Definition httpErrorRaw (parsed : option JsValue) (responseText : string) : JsValue :=
  match parsed with
  | Some envelope => envelope
  | None => JStr responseText
  end.

(** "the envelope's status field if present, else the HTTP status". *)
Definition declaredStatus (props : list (string * JsValue)) (httpStatus : Z) : JsValue :=
  match Js.lookup "status" props with
  | Some s => s
  | None => JNum httpStatus
  end.

(** The outcome the specification gives a call answered with a status
    outside 2xx, [parsed] being the result of parsing the body. *)
Definition httpErrorOutcome (parsed : option JsValue) (response : Response)
  (responseText : string) (c : Completion JsValue) : Prop :=
  exists e,
    c = Throw (ApiError e)
    /\ KiteApiError.statusCode e = JNum (status response)
    /\ KiteApiError.message e = httpErrorMessage parsed response
    /\ KiteApiError.raw e = httpErrorRaw parsed responseText.

(** The outcome the specification gives a call answered 2xx with an
    envelope [{ success: false, ... }]. *)
Definition declaredFailureOutcome (props : list (string * JsValue)) (response : Response)
  (c : Completion JsValue) : Prop :=
  exists e,
    c = Throw (ApiError e)
    /\ KiteApiError.statusCode e = declaredStatus props (status response)
    /\ KiteApiError.message e = declaredMessage (JObj props)
    /\ KiteApiError.raw e = JObj props.

(** "a KiteApiError is never thrown without an HTTP exchange having
    occurred": the service was reached and answered with a failure
    signal. *)
Definition apiErrorAfterExchange (JSON_parse : string -> option JsValue)
  (fetch : string -> RequestInit -> Exchange) (run : Eff JsValue) : Prop :=
  forall e,
    completion run = Throw (ApiError e) ->
    exists response responseText,
      serviceResponded fetch (trace run) response responseText
      /\ failureSignal JSON_parse response responseText.

(** "emitted if and only if L's numeric rank is greater than or equal to
    M's numeric rank". *)
Definition emitted (minimum level : LogLevel) : bool :=
  LOG_LEVELS minimum <=? LOG_LEVELS level.

End Spec.

(** ** The public methods, as one type of calls *)

Inductive Call : Type :=
| HealthCheck
| CreateWallet (params : JsValue)
| ListWallets
| GetWallet (walletId : JsValue)
| GetWalletsByUser (email : JsValue)
| ListUsers
| GetUser (email : JsValue)
| GetNonce (params : JsValue)
| GetGasPrices (params : JsValue)
| GetGasPrice (params : JsValue)
| CreateNativeTransfer (params : JsValue)
| CreateERC20Transfer (params : JsValue)
| SignTransaction (params : JsValue)
| BroadcastTransaction (params : JsValue).

Definition invoke (JSON_parse : string -> option JsValue)
  (fetch : string -> RequestInit -> Exchange) (this : KiteClient.t) (c : Call)
  : Eff JsValue :=
  match c with
  | HealthCheck => KiteClient.healthCheck JSON_parse fetch this
  | CreateWallet params => KiteClient.createWallet JSON_parse fetch this params
  | ListWallets => KiteClient.listWallets JSON_parse fetch this
  | GetWallet walletId => KiteClient.getWallet JSON_parse fetch this walletId
  | GetWalletsByUser email => KiteClient.getWalletsByUser JSON_parse fetch this email
  | ListUsers => KiteClient.listUsers JSON_parse fetch this
  | GetUser email => KiteClient.getUser JSON_parse fetch this email
  | GetNonce params => KiteClient.getNonce JSON_parse fetch this params
  | GetGasPrices params => KiteClient.getGasPrices JSON_parse fetch this params
  | GetGasPrice params => KiteClient.getGasPrice JSON_parse fetch this params
  | CreateNativeTransfer params => KiteClient.createNativeTransfer JSON_parse fetch this params
  | CreateERC20Transfer params => KiteClient.createERC20Transfer JSON_parse fetch this params
  | SignTransaction params => KiteClient.signTransaction JSON_parse fetch this params
  | BroadcastTransaction params => KiteClient.broadcastTransaction JSON_parse fetch this params
  end.

(** ** Scenarios: a client, a scripted network and a scripted parser *)

Module Scenario.

(** The JSON text of a value. *)
Definition textOf (v : JsValue) : string :=
  match Engine.JSON_stringify v with
  | Some (Some text) => text
  | _ => ""
  end.

(** [JSON.parse] on the texts of the listed values; every other text is a
    syntax error. *)
Definition parseOnly (known : list JsValue) (text : string) : option JsValue :=
  find (fun v => (textOf v =? text)%string) known.

(** A network that answers every request with one response. *)
Definition responds (response : Response) (responseText : string)
  : string -> RequestInit -> Exchange :=
  fun _ _ => Settled response responseText.

(** A network on which every request is rejected with [err]. *)
Definition rejects (err : JsValue) : string -> RequestInit -> Exchange :=
  fun _ _ => Rejected err.

Definition abortError : JsValue :=
  JObj [("name", JStr "AbortError"); ("message", JStr "This operation was aborted")].

Definition fetchFailed : JsValue :=
  JObj [("name", JStr "TypeError"); ("message", JStr "fetch failed")].

Definition http (code : Z) (text : string) : Response :=
  {| status := code; statusText := text |}.

(** [new KiteClient({ baseUrl, apiKey, timeout: 50 })], with the default
    log level. *)
Definition client : KiteClient.t :=
  {| KiteClient.config :=
      Build_RequestConfig "https://kite.example.com" "org-key" 50 info
        (KiteClient.log info) |}.

Definition config : RequestConfig := KiteClient.config client.

(** Bodies a service may send. *)
Definition walletEnvelope : JsValue :=
  JObj [("success", JBool true); ("status", JNum 200);
        ("data", JObj [("walletId", JStr "w1"); ("address", JStr "0xabc")])].

Definition bareWallet : JsValue :=
  JObj [("walletId", JStr "w1"); ("address", JStr "0xabc")].

Definition notFound : JsValue :=
  JObj [("success", JBool false); ("status", JNum 404); ("error", JStr "Wallet not found")].

Definition emptyError : JsValue := JObj [("error", JStr "")].

Definition nullStatus : list (string * JsValue) :=
  [("success", JBool false); ("status", JNull); ("error", JStr "denied")].

Definition zeroSuccess : JsValue :=
  JObj [("success", JNum 0); ("data", JStr "payload")].

(** U+00A0 and U+FEFF, which [trim] strips, and a lone surrogate (U+D800),
    which [encodeURIComponent] refuses. *)
Definition noBreakSpace : string := String (ascii_of_N 194) (String (ascii_of_N 160) "").

Definition byteOrderMark : string :=
  String (ascii_of_N 239) (String (ascii_of_N 187) (String (ascii_of_N 191) "")).

Definition loneSurrogate : string :=
  String (ascii_of_N 237) (String (ascii_of_N 160) (String (ascii_of_N 128) "")).

(** A request body [JSON.stringify] cannot serialise. *)
Definition bigIntBody : JsValue :=
  JObj [("walletId", JStr "w1"); ("unsignedRaw", JStr "0xab");
        ("transaction", JObj [("value", JBigInt 10)])].

End Scenario.

(** ** Observations on a trace *)

Definition isSetTimeout (ev : Event) : bool :=
  match ev with SetTimeout _ => true | _ => false end.

Definition isClearTimeout (ev : Event) : bool :=
  match ev with ClearTimeout => true | _ => false end.

Definition isFetch (ev : Event) : bool :=
  match ev with Fetch _ _ => true | _ => false end.

(** How many events of a kind a trace holds. *)
Definition count (kind : Event -> bool) (events : list Event) : nat :=
  length (filter kind events).

(** A log sink that only writes to the console, as the one the
    [KiteClient] constructor installs does. *)
Definition consoleOnly (sink : LogLevel -> string -> list Event) : Prop :=
  forall level message ev,
    In ev (sink level message) -> exists out text, ev = Console out text.

(** The endpoint table of the README (Method, Backend endpoint): the verb,
    the path up to a path parameter, and what follows the parameter when
    the endpoint has one. *)
Definition documentedRoute (c : Call) : string * string * option string :=
  match c with
  | HealthCheck => ("GET", "/health", None)
  | CreateWallet _ => ("POST", "/api/wallets", None)
  | ListWallets => ("GET", "/api/wallets", None)
  | GetWallet _ => ("GET", "/api/wallets/", Some "")
  | GetWalletsByUser _ => ("GET", "/api/wallets/users/", Some "/wallets")
  | ListUsers => ("GET", "/api/users", None)
  | GetUser _ => ("GET", "/api/users/", Some "")
  | GetNonce _ => ("POST", "/api/transactions/nonce", None)
  | GetGasPrices _ => ("POST", "/api/transactions/gas-prices", None)
  | GetGasPrice _ => ("POST", "/api/transactions/gas-price", None)
  | CreateNativeTransfer _ => ("POST", "/api/transactions/native", None)
  | CreateERC20Transfer _ => ("POST", "/api/transactions/erc20", None)
  | SignTransaction _ => ("POST", "/api/transactions/sign", None)
  | BroadcastTransaction _ => ("POST", "/api/transactions/broadcast", None)
  end.

(** The "Required inputs" column of the same table, as the values a call
    passes for them. *)
Definition documentedInputs (c : Call) : list JsValue :=
  match c with
  | HealthCheck | ListWallets | ListUsers => []
  | CreateWallet params => [Js.get params "userEmail"]
  | GetWallet walletId => [walletId]
  | GetWalletsByUser email | GetUser email => [email]
  | GetNonce params => [Js.get params "walletId"; Js.get params "rpcUrl"]
  | GetGasPrices params | GetGasPrice params => [Js.get params "rpcUrl"]
  | CreateNativeTransfer params =>
      [Js.get params "walletId"; Js.get params "rpcUrl"; Js.get params "to"]
  | CreateERC20Transfer params =>
      [Js.get params "walletId"; Js.get params "rpcUrl";
       Js.get params "tokenAddress"; Js.get params "to"; Js.get params "amount"]
  | SignTransaction params => [Js.get params "walletId"; Js.get params "unsignedRaw"]
  | BroadcastTransaction params => [Js.get params "signedHex"; Js.get params "rpcUrl"]
  end.

(** The argument that fills the path parameter of a call's endpoint. *)
Definition pathArgument (c : Call) : JsValue :=
  match c with
  | GetWallet walletId => walletId
  | GetWalletsByUser email | GetUser email => email
  | _ => JUndefined
  end.

(** A path is the documented route of a call: the endpoint as written, or,
    where it has a path parameter, the endpoint with the
    [encodeURIComponent] text of the call's argument in its place. *)
Definition followsRoute (c : Call) (path : string) : Prop :=
  match documentedRoute c with
  | (_, prefix, None) => path = prefix
  | (_, prefix, Some suffix) =>
      exists segment,
        Engine.encodeURIComponent (Js.ToString (pathArgument c)) = Some segment
        /\ path = prefix ++ segment ++ suffix
  end.

(** * Properties *)

(** ** Effects *)

Lemma completion_bind_return {A B} (m : Eff A) (k : A -> Eff B) (a : A) :
  completion m = Return a -> completion (bind m k) = completion (k a).
Proof.
  destruct m as [evs c]; simpl; intros ->.
  unfold bind, completion; simpl. destruct (k a); reflexivity.
Qed.

Lemma completion_bind_throw {A B} (m : Eff A) (k : A -> Eff B) (e : Thrown) :
  completion m = Throw e -> completion (bind m k) = Throw e.
Proof.
  destruct m as [evs c]; simpl; intros ->. reflexivity.
Qed.

Lemma completion_bind_inv {A B} (m : Eff A) (k : A -> Eff B) (e : Thrown) :
  completion (bind m k) = Throw e ->
  completion m = Throw e
  \/ exists a, completion m = Return a /\ completion (k a) = Throw e.
Proof.
  destruct m as [evs [a | e']]; simpl.
  - intros H. right. exists a. split; [reflexivity |].
    unfold completion in *. destruct (k a); exact H.
  - intros H. left. inversion H. reflexivity.
Qed.

Lemma trace_bind_incl {A B} (m : Eff A) (k : A -> Eff B) (ev : Event) :
  In ev (trace m) -> In ev (trace (bind m k)).
Proof.
  destruct m as [evs [a | e]]; simpl; intros H.
  - destruct (k a) as [evs' c]; simpl. apply in_or_app. left. exact H.
  - exact H.
Qed.

Lemma bind_ret_l {A B} (a : A) (k : A -> Eff B) : bind (ret a) k = k a.
Proof. unfold bind, ret. destruct (k a) as [evs c]. reflexivity. Qed.

Lemma bind_throw_l {A B} (e : Thrown) (k : A -> Eff B) : bind (throw e) k = throw e.
Proof. reflexivity. Qed.

Lemma bind_ret_r {A} (m : Eff A) : bind m ret = m.
Proof.
  destruct m as [evs [a | e]]; cbn; [| reflexivity]. rewrite app_nil_r. reflexivity.
Qed.

(** The first property read of a [params] argument, and the encoding of a
    path argument: each either throws its engine error or yields a value. *)
Lemma read_cases (params : JsValue) (key : string) :
  (Js.nullish params = true
   /\ exists message, KiteClient.read params key = throw (TypeError message))
  \/ (Js.nullish params = false
      /\ KiteClient.read params key = ret (Js.get params key)).
Proof.
  unfold KiteClient.read. destruct (Js.nullish params).
  - left. split; [reflexivity |]. eexists. reflexivity.
  - right. split; reflexivity.
Qed.

Lemma encode_cases (v : JsValue) :
  (exists segment,
      Engine.encodeURIComponent (Js.ToString v) = Some segment
      /\ KiteClient.encode v = ret segment)
  \/ (Engine.encodeURIComponent (Js.ToString v) = None
      /\ KiteClient.encode v = throw (URIError "URI malformed")).
Proof.
  unfold KiteClient.encode. destruct (Engine.encodeURIComponent (Js.ToString v)).
  - left. eexists. split; reflexivity.
  - right. split; reflexivity.
Qed.

(** ** JavaScript operators *)

Lemma get_isFalse_truthy (data : JsValue) (k : string) :
  Js.isFalse (Js.get data k) = true -> Js.truthy data = true.
Proof.
  destruct data; simpl; try discriminate. reflexivity.
Qed.

Lemma isFalse_spec (v : JsValue) : Js.isFalse v = true <-> v = JBool false.
Proof.
  split.
  - destruct v as [| | [|] | | | | |]; simpl; try discriminate. reflexivity.
  - intros ->. reflexivity.
Qed.

(** The [||] chain of the non-2xx branch. *)
Lemma or_chain_message (data : JsValue) (response : Response) :
  Js.ToString
    (Js.or
       (Js.or
          (Js.and (Js.and data (JBool (Js.isString (Js.get data "error"))))
             (Js.get data "error"))
          (JStr (statusText response)))
       (JStr ("Request failed with status " ++ Js.showZ (status response))))
  = httpErrorMessage data response.
Proof.
  assert (Hline : forall v, Js.truthy v = false ->
            Js.ToString
              (Js.or (Js.or v (JStr (statusText response)))
                 (JStr ("Request failed with status " ++ Js.showZ (status response))))
            = statusLine response).
  { intros v Hv. unfold Js.or, statusLine. rewrite Hv. cbn [Js.truthy].
    destruct (statusText response =? "")%string; reflexivity. }
  unfold httpErrorMessage, Js.and.
  destruct data as [| | b | n | n | s | items | props];
    cbn [Js.get Js.truthy Js.isString].
  - apply Hline; reflexivity.
  - apply Hline; reflexivity.
  - destruct b; apply Hline; reflexivity.
  - destruct (n =? 0) eqn:E; cbn [negb Js.truthy]; rewrite ?E; cbn [negb];
      apply Hline; simpl; rewrite ?E; reflexivity.
  - destruct (n =? 0) eqn:E; cbn [negb Js.truthy]; rewrite ?E; cbn [negb];
      apply Hline; simpl; rewrite ?E; reflexivity.
  - destruct (s =? "")%string eqn:E; cbn [negb Js.truthy]; rewrite ?E; cbn [negb];
      apply Hline; simpl; rewrite ?E; reflexivity.
  - apply Hline; reflexivity.
  - destruct (Js.lookup "error" props) as [[| | b | n | n | e | items | ps] |];
      cbn [Js.isString Js.truthy]; try (apply Hline; reflexivity).
    destruct (e =? "")%string eqn:He.
    + apply Hline. cbn [Js.truthy]. rewrite He. reflexivity.
    + unfold Js.or. cbn [Js.truthy]. rewrite He. cbn [negb Js.truthy].
      rewrite He. reflexivity.
Qed.

(** The [||] of the rejected branch. *)
Lemma or_network_message (timeout : Z) (err : JsValue) :
  (if isAbort err
   then "Request timed out after " ++ Js.showZ timeout ++ "ms"
   else Js.ToString (Js.or (Js.optGet err "message") (JStr "Network request failed")))
  = networkMessage timeout err.
Proof.
  unfold networkMessage, Js.or.
  destruct (isAbort err); [reflexivity |].
  destruct (Js.truthy (Js.optGet err "message")); reflexivity.
Qed.

(** The two returns of the success path. *)
Lemma success_unwrap (data : JsValue) :
  (if Js.truthy data && Js.isObject data && Js.has "data" data
   then Js.coalesce (Js.get data "data") data
   else Js.coalesce data (JObj []))
  = unwrap data.
Proof.
  destruct data as [| | b | n | n | s | items | props]; cbn;
    try reflexivity.
  - destruct b; reflexivity.
  - destruct (n =? 0); reflexivity.
  - destruct (n =? 0); reflexivity.
  - destruct (s =? "")%string; reflexivity.
  - destruct (Js.lookup "data" props); reflexivity.
Qed.

(** ** [request], branch by branch *)

Section RequestBranches.

Variable JSON_parse : string -> option JsValue.
Variable fetch : string -> RequestInit -> Exchange.
Variable config : RequestConfig.
Variables method path : string.
Variable body : JsValue.

Local Abbreviation run := (request JSON_parse fetch config method path body).
Local Abbreviation url := (requestUrl config path).

(** [JSON.stringify] throws: the call ends there, before any exchange. *)
Lemma request_stringify_throws :
  requestBody method body = None ->
  run = ([SetTimeout (timeout config)],
         Throw (TypeError "Do not know how to serialize a BigInt")).
Proof.
  unfold request, requestBody.
  destruct (negb (Js.nullish body) && negb (method =? "GET")%string).
  - intros ->. reflexivity.
  - discriminate.
Qed.

Ltac enter_request Hb Hf :=
  unfold request, requestBody, requestUrl, requestInit in *;
  destruct (negb (Js.nullish body) && negb (method =? "GET")%string);
  [ rewrite Hb | injection Hb as <- ];
  cbv [bind emit ret throw]; rewrite Hf; cbn [app].

(** The exchange is rejected. *)
Lemma request_rejected (text : option string) (err : JsValue) :
  requestBody method body = Some text ->
  fetch url (requestInit config method text) = Rejected err ->
  run = (SetTimeout (timeout config)
           :: log config debug (method ++ " " ++ url)
           ++ Fetch url (requestInit config method text)
           :: ClearTimeout
           :: log config error (networkMessage (timeout config) err),
         Throw (NetworkError
                  (KiteNetworkError.new (networkMessage (timeout config) err) err))).
Proof.
  intros Hb Hf.
  enter_request Hb Hf;
    fold (isAbort err); rewrite or_network_message, app_nil_r; reflexivity.
Qed.

(** The service answers with a status outside 2xx. *)
Lemma request_http_error (text : option string) (response : Response)
  (responseText : string) :
  requestBody method body = Some text ->
  fetch url (requestInit config method text) = Settled response responseText ->
  ok response = false ->
  let data := safeJsonParse JSON_parse responseText in
  let message := httpErrorMessage data response in
  run = (SetTimeout (timeout config)
           :: log config debug (method ++ " " ++ url)
           ++ Fetch url (requestInit config method text)
           :: ClearTimeout
           :: log config warn
                (Js.showZ (status response) ++ " " ++ path ++ ": " ++ message),
         Throw (ApiError
                  (KiteApiError.new (JNum (status response)) message JUndefined
                     (Js.coalesce data (JStr responseText))))).
Proof.
  intros Hb Hf Hok data message.
  enter_request Hb Hf;
    rewrite Hok; cbn [negb app]; rewrite or_chain_message, app_nil_r; reflexivity.
Qed.

(** The service answers 2xx with [success: false]. *)
Lemma request_declared_failure (text : option string) (response : Response)
  (responseText : string) :
  requestBody method body = Some text ->
  fetch url (requestInit config method text) = Settled response responseText ->
  ok response = true ->
  let data := safeJsonParse JSON_parse responseText in
  Js.get data "success" = JBool false ->
  run = (SetTimeout (timeout config)
           :: log config debug (method ++ " " ++ url)
           ++ Fetch url (requestInit config method text)
           :: ClearTimeout
           :: log config warn
                (Js.showZ (status response) ++ " " ++ path ++ ": " ++ declaredMessage data),
         Throw (ApiError
                  (KiteApiError.new
                     (Js.coalesce (Js.get data "status") (JNum (status response)))
                     (declaredMessage data) JUndefined data))).
Proof.
  intros Hb Hf Hok data Hs.
  assert (Ht : Js.truthy data && Js.isFalse (Js.get data "success") = true).
  { rewrite (get_isFalse_truthy data "success"); rewrite Hs; reflexivity. }
  enter_request Hb Hf;
    rewrite Hok; cbn [negb]; fold data; rewrite Ht; cbn [app];
    rewrite app_nil_r; reflexivity.
Qed.

(** The service answers 2xx and the body does not declare a failure. *)
Lemma request_success (text : option string) (response : Response)
  (responseText : string) :
  requestBody method body = Some text ->
  fetch url (requestInit config method text) = Settled response responseText ->
  ok response = true ->
  let data := safeJsonParse JSON_parse responseText in
  Js.get data "success" <> JBool false ->
  run = (SetTimeout (timeout config)
           :: log config debug (method ++ " " ++ url)
           ++ [Fetch url (requestInit config method text); ClearTimeout],
         Return (unwrap data)).
Proof.
  intros Hb Hf Hok data Hs.
  assert (Ht : Js.truthy data && Js.isFalse (Js.get data "success") = false).
  { destruct (Js.isFalse (Js.get data "success")) eqn:E.
    - apply isFalse_spec in E. contradiction.
    - apply andb_false_r. }
  enter_request Hb Hf;
    rewrite Hok; cbn [negb]; fold data; rewrite Ht;
    rewrite <- (success_unwrap data);
    destruct (Js.truthy data && Js.isObject data && Js.has "data" data);
    reflexivity.
Qed.

End RequestBranches.

Lemma ok_true_iff (r : Response) : ok r = true <-> 200 <= status r <= 299.
Proof. unfold ok. rewrite andb_true_iff, !Z.leb_le. tauto. Qed.

Lemma ok_false_iff (r : Response) : ok r = false <-> ~ (200 <= status r <= 299).
Proof.
  rewrite <- ok_true_iff. destruct (ok r); split; intros H;
    try reflexivity; try discriminate; try (intros H'; discriminate).
  exfalso. apply H. reflexivity.
Qed.

(** ** The outcome of a call to [request] *)

Section RequestOutcome.

Variable JSON_parse : string -> option JsValue.
Variable fetch : string -> RequestInit -> Exchange.
Variable config : RequestConfig.
Variables method path : string.
Variable body : JsValue.

Local Abbreviation run := (request JSON_parse fetch config method path body).

(** When the request body is serialised (or none is sent), a call to
    [request] has exactly one of the three outcomes. *)
Lemma request_one_of_three_when_serialised :
  requestBody method body <> None ->
  oneOfThreeOutcomes (completion run).
Proof.
  intros Hbody.
  destruct (requestBody method body) as [text |] eqn:Hb; [clear Hbody | contradiction].
  unfold oneOfThreeOutcomes, exactlyOne, returnsPayload, throwsApiError,
    throwsNetworkError.
  destruct (fetch (requestUrl config path) (requestInit config method text))
    as [err | response responseText] eqn:Hf.
  - right; right.
    rewrite (request_rejected _ _ _ _ _ _ _ _ Hb Hf). cbn [completion snd].
    repeat split.
    + intros [v H]; discriminate.
    + intros [e H]; discriminate.
    + eexists; reflexivity.
  - destruct (ok response) eqn:Hok.
    + destruct (Js.isFalse (Js.get (safeJsonParse JSON_parse responseText) "success"))
        eqn:Hs.
      * apply isFalse_spec in Hs.
        right; left.
        rewrite (request_declared_failure _ _ _ _ _ _ _ _ _ Hb Hf Hok Hs).
        cbn [completion snd]. repeat split.
        -- intros [v H]; discriminate.
        -- eexists; reflexivity.
        -- intros [e H]; discriminate.
      * assert (Hn : Js.get (safeJsonParse JSON_parse responseText) "success"
                     <> JBool false).
        { intros H. apply isFalse_spec in H. congruence. }
        left.
        rewrite (request_success _ _ _ _ _ _ _ _ _ Hb Hf Hok Hn).
        cbn [completion snd]. repeat split.
        -- eexists; reflexivity.
        -- intros [e H]; discriminate.
        -- intros [e H]; discriminate.
    + right; left.
      rewrite (request_http_error _ _ _ _ _ _ _ _ _ Hb Hf Hok).
      cbn [completion snd]. repeat split.
      * intros [v H]; discriminate.
      * eexists; reflexivity.
      * intros [e H]; discriminate.
Qed.

End RequestOutcome.

(** ** A call the service answers *)

Section Answered.

Variable JSON_parse : string -> option JsValue.
Variable fetch : string -> RequestInit -> Exchange.
Variable config : RequestConfig.
Variables method path : string.
Variable body : JsValue.
Variable text : option string.
Variable response : Response.
Variable responseText : string.

Hypothesis body_serialised : requestBody method body = Some text.
Hypothesis answered :
  fetch (requestUrl config path) (requestInit config method text)
  = Settled response responseText.

Local Abbreviation run := (request JSON_parse fetch config method path body).
Local Abbreviation data := (safeJsonParse JSON_parse responseText).

(** C2, as amended. When the HTTP status is outside 200..299, [request]
    throws a [KiteApiError] whose [statusCode] is the HTTP status whatever
    the body holds; whose message is the body's [error] field if that is a
    non-empty string, else the response status text if that is non-empty,
    else [Request failed with status N]; and whose [raw] is the parsed body
    unless that is [null] (the body did not parse, or is the text [null]),
    in which case it is the raw response text. *)
Theorem C2_http_error_thrown :
  ~ (200 <= status response <= 299) ->
  exists e,
    completion run = Throw (ApiError e)
    /\ KiteApiError.statusCode e = JNum (status response)
    /\ KiteApiError.message e = httpErrorMessage data response
    /\ KiteApiError.raw e = (if Js.nullish data then JStr responseText else data).
Proof.
  intros Hstatus. apply ok_false_iff in Hstatus.
  rewrite (request_http_error _ _ _ _ _ _ _ _ _ body_serialised answered Hstatus).
  eexists. cbn [completion snd]. split; [reflexivity |].
  cbn. repeat split; reflexivity.
Qed.

(** C3, as amended. When the HTTP status is in 200..299 and the parsed body
    has [success === false], [request] throws a [KiteApiError] whose
    [statusCode] is the body's [status] field if that is present and not
    [null], else the HTTP status; whose message is the body's [error] field
    if it is a string, else [Request failed]; and whose [raw] is the parsed
    body. *)
Theorem C3_declared_failure_thrown (envelope : JsValue) :
  200 <= status response <= 299 ->
  JSON_parse responseText = Some envelope ->
  Js.get envelope "success" = JBool false ->
  exists e,
    completion run = Throw (ApiError e)
    /\ KiteApiError.statusCode e
       = match Js.get envelope "status" with
         | JUndefined | JNull => JNum (status response)
         | declared => declared
         end
    /\ KiteApiError.message e
       = match Js.get envelope "error" with
         | JStr message => message
         | _ => "Request failed"
         end
    /\ KiteApiError.raw e = envelope.
Proof.
  intros Hstatus Hparse Hsuccess. apply ok_true_iff in Hstatus.
  assert (Hdata : data = envelope).
  { unfold safeJsonParse. rewrite Hparse. reflexivity. }
  rewrite (request_declared_failure _ _ _ _ _ _ _ _ _ body_serialised answered Hstatus);
    rewrite Hdata; [| exact Hsuccess].
  eexists. cbn [completion snd]. split; [reflexivity |].
  cbn [KiteApiError.statusCode KiteApiError.message KiteApiError.raw].
  repeat split.
  unfold Js.coalesce. destruct (Js.get envelope "status"); reflexivity.
Qed.

(** C4. When the HTTP status is in 200..299 and the parsed body is an
    object that does not declare a failure, such as
    [{ success: true, status: 200, data: X }], [request] returns exactly
    the value [X] of its [data] field; if that value is absent or [null],
    it returns the whole object. *)
Theorem C4_nested_payload_returned (props : list (string * JsValue)) :
  200 <= status response <= 299 ->
  JSON_parse responseText = Some (JObj props) ->
  Js.get (JObj props) "success" <> JBool false ->
  completion run
  = Return (match Js.lookup "data" props with
            | Some X => if Js.nullish X then JObj props else X
            | None => JObj props
            end).
Proof.
  intros Hstatus Hparse Hsuccess. apply ok_true_iff in Hstatus.
  assert (Hdata : data = JObj props).
  { unfold safeJsonParse. rewrite Hparse. reflexivity. }
  rewrite (request_success _ _ _ _ _ _ _ _ _ body_serialised answered Hstatus);
    rewrite Hdata; [| exact Hsuccess].
  reflexivity.
Qed.

(** C5. When the HTTP status is in 200..299 and the body is not parsable as
    JSON, [request] does not throw: it returns an empty object. *)
Theorem C5_unparsable_body_returns_empty_object :
  200 <= status response <= 299 ->
  JSON_parse responseText = None ->
  completion run = Return (JObj []).
Proof.
  intros Hstatus Hparse. apply ok_true_iff in Hstatus.
  assert (Hdata : data = JNull).
  { unfold safeJsonParse. rewrite Hparse. reflexivity. }
  rewrite (request_success _ _ _ _ _ _ _ _ _ body_serialised answered Hstatus);
    rewrite Hdata; [reflexivity | discriminate].
Qed.

(** C9. When the HTTP status is in 200..299 and the parsed body is an
    object with neither a [data] nor a [success] field, [request] returns
    that object unchanged. *)
Theorem C9_bare_object_returned_unchanged (props : list (string * JsValue)) :
  200 <= status response <= 299 ->
  JSON_parse responseText = Some (JObj props) ->
  Js.lookup "data" props = None ->
  Js.lookup "success" props = None ->
  completion run = Return (JObj props).
Proof.
  intros Hstatus Hparse Hnodata Hnosuccess. apply ok_true_iff in Hstatus.
  assert (Hdata : data = JObj props).
  { unfold safeJsonParse. rewrite Hparse. reflexivity. }
  rewrite (request_success _ _ _ _ _ _ _ _ _ body_serialised answered Hstatus);
    rewrite Hdata.
  - cbn [unwrap]. rewrite Hnodata. reflexivity.
  - cbn [Js.get]. rewrite Hnosuccess. discriminate.
Qed.

(** C10. When the HTTP status is in 200..299, [request] throws a
    [KiteApiError] exactly when the [success] field of the parsed body is
    the boolean [false]; with any other value there ([0], the string
    [false], [null], the empty string, [true]) or no such field, the call
    is a success and the payload is returned. *)
Theorem C10_only_false_declares_failure :
  200 <= status response <= 299 ->
  (throwsApiError (completion run) <-> Js.get data "success" = JBool false)
  /\ (Js.get data "success" <> JBool false -> completion run = Return (unwrap data)).
Proof.
  intros Hstatus. apply ok_true_iff in Hstatus.
  assert (Hreturn : Js.get data "success" <> JBool false ->
                    completion run = Return (unwrap data)).
  { intros Hn.
    rewrite (request_success _ _ _ _ _ _ _ _ _ body_serialised answered Hstatus Hn).
    reflexivity. }
  split; [| exact Hreturn].
  split.
  - intros [e He].
    destruct (Js.isFalse (Js.get data "success")) eqn:Hs.
    + apply isFalse_spec. exact Hs.
    + rewrite Hreturn in He; [discriminate |].
      intros H. apply isFalse_spec in H. congruence.
  - intros Hs. unfold throwsApiError.
    rewrite (request_declared_failure _ _ _ _ _ _ _ _ _ body_serialised answered Hstatus Hs).
    eexists. reflexivity.
Qed.

End Answered.

(** ** A call whose exchange fails *)

(** C6. When the exchange is rejected, [request] throws a
    [KiteNetworkError], never a [KiteApiError]. If the rejection is the
    abort raised by the cancellation timer, the message states the
    configured timeout; otherwise it is the rejection's own message, or
    [Network request failed] when it has none. The rejection is kept as
    the error's [cause]. *)
Theorem C6_rejected_exchange_throws_network_error
  (JSON_parse : string -> option JsValue) (fetch : string -> RequestInit -> Exchange)
  (config : RequestConfig) (method path : string) (body : JsValue)
  (text : option string) (err : JsValue) :
  requestBody method body = Some text ->
  fetch (requestUrl config path) (requestInit config method text) = Rejected err ->
  let run := request JSON_parse fetch config method path body in
  exists e,
    completion run = Throw (NetworkError e)
    /\ ~ throwsApiError (completion run)
    /\ (isAbort err = true ->
        KiteNetworkError.message e
        = "Request timed out after " ++ Js.showZ (timeout config) ++ "ms")
    /\ (isAbort err = false ->
        KiteNetworkError.message e
        = if Js.truthy (Js.optGet err "message")
          then Js.ToString (Js.optGet err "message")
          else "Network request failed")
    /\ KiteNetworkError.cause e = err.
Proof.
  intros Hb Hf run. unfold run.
  rewrite (request_rejected _ _ _ _ _ _ _ _ Hb Hf).
  eexists. cbn [completion snd]. split; [reflexivity |].
  split; [intros [e H]; discriminate |].
  cbn [KiteNetworkError.message KiteNetworkError.cause]. unfold networkMessage.
  repeat split; intros ->; reflexivity.
Qed.

(** ** The log filter *)

(** What the closure does: a line is written exactly when the rank of its
    level is at most the rank of the configured level. *)
Lemma log_writes_iff (logLevel level : LogLevel) (message : string) :
  KiteClient.log logLevel level message <> [] <-> LOG_LEVELS level <= LOG_LEVELS logLevel.
Proof.
  unfold KiteClient.log.
  destruct (Z.leb_spec (LOG_LEVELS level) (LOG_LEVELS logLevel)) as [Hle | Hgt];
    split; intros Hw; try assumption; try discriminate; try lia.
  exfalso. apply Hw. reflexivity.
Qed.

(** C7, on the code. With the configured level [info], a message of level
    [error] is not written, although the rank of [error] is above the rank
    of [info] and the specification has it emitted; a message of level
    [debug], which the specification filters out, is written. *)
Theorem C7_error_dropped_at_info (message : string) :
  KiteClient.log info error message = []
  /\ Spec.emitted info error = true
  /\ KiteClient.log info debug message = [Console console_log ("[KiteSDK] " ++ message)]
  /\ Spec.emitted info debug = false.
Proof. repeat split. Qed.

(** The same through the constructor and [request]: a client built with the
    default level logs the [debug] line of a call and drops the [error]
    line of its network failure. *)
Lemma default_client_drops_error_line :
  match
    KiteClient.constructor
      {| SdkConfiguration.baseUrl := Some "https://kite.example.com/";
         SdkConfiguration.apiKey := Some "org-key";
         SdkConfiguration.logLevel := None;
         SdkConfiguration.timeout := None |}
  with
  | Return this =>
      trace (KiteClient.healthCheck (Scenario.parseOnly [])
               (Scenario.rejects Scenario.fetchFailed) this)
      = [SetTimeout 30000;
         Console console_log "[KiteSDK] GET https://kite.example.com/health";
         Fetch "https://kite.example.com/health"
           {| init_method := "GET";
              init_headers := [("Content-Type", "application/json");
                               ("X-API-Key", "org-key")];
              init_body := None |};
         ClearTimeout]
  | Throw _ => False
  end.
Proof. reflexivity. Qed.

(** ** Where a [KiteApiError] comes from *)

Section ApiErrorOrigin.

Variable JSON_parse : string -> option JsValue.
Variable fetch : string -> RequestInit -> Exchange.

(** A [KiteApiError] thrown by [request] follows an exchange in which the
    service answered with a failure signal. *)
Lemma request_api_error_after_exchange (config : RequestConfig) (method path : string)
  (body : JsValue) :
  Spec.apiErrorAfterExchange JSON_parse fetch
    (request JSON_parse fetch config method path body).
Proof.
  intros e He.
  destruct (requestBody method body) as [text |] eqn:Hb.
  2: { rewrite (request_stringify_throws _ _ _ _ _ _ Hb) in He. discriminate. }
  destruct (fetch (requestUrl config path) (requestInit config method text))
    as [err | response responseText] eqn:Hf.
  { rewrite (request_rejected _ _ _ _ _ _ _ _ Hb Hf) in He. discriminate. }
  exists response, responseText.
  assert (Hin : forall evs c,
            request JSON_parse fetch config method path body
            = (SetTimeout (timeout config)
                 :: log config debug (method ++ " " ++ requestUrl config path)
                 ++ Fetch (requestUrl config path) (requestInit config method text) :: evs,
               c) ->
            serviceResponded fetch
              (trace (request JSON_parse fetch config method path body))
              response responseText).
  { intros evs c ->. exists (requestUrl config path), (requestInit config method text).
    split; [| exact Hf].
    cbn [trace fst]. right. apply in_or_app. right. left. reflexivity. }
  destruct (ok response) eqn:Hok.
  - destruct (Js.isFalse (Js.get (safeJsonParse JSON_parse responseText) "success"))
      eqn:Hs.
    + apply isFalse_spec in Hs. split.
      * eapply Hin. exact (request_declared_failure _ _ _ _ _ _ _ _ _ Hb Hf Hok Hs).
      * right. exact Hs.
    + assert (Hn : Js.get (safeJsonParse JSON_parse responseText) "success"
                   <> JBool false).
      { intros H. apply isFalse_spec in H. congruence. }
      rewrite (request_success _ _ _ _ _ _ _ _ _ Hb Hf Hok Hn) in He. discriminate.
  - split.
    + eapply Hin. exact (request_http_error _ _ _ _ _ _ _ _ _ Hb Hf Hok).
    + left. exact Hok.
Qed.

Lemma origin_request (this : KiteClient.t) (method path : string) (body : JsValue) :
  fromServiceOrArgument JSON_parse fetch (KiteClient.req JSON_parse fetch this method path body).
Proof.
  intros e He. left. exact (request_api_error_after_exchange _ _ _ _ e He).
Qed.

Lemma origin_bad_request (message : string) :
  fromServiceOrArgument JSON_parse fetch (throw (KiteClient.badRequest message)).
Proof.
  intros e He. right. split; [reflexivity |].
  cbn in He. injection He as <-. reflexivity.
Qed.

(** Post-processing that only returns keeps the origin. *)
Lemma origin_then (m : Eff JsValue) (k : JsValue -> Eff JsValue) :
  fromServiceOrArgument JSON_parse fetch m ->
  (forall a, exists v, k a = ret v) ->
  fromServiceOrArgument JSON_parse fetch (bind m k).
Proof.
  intros Hm Hk e He.
  destruct (completion_bind_inv _ _ _ He) as [Hthrow | [a [_ Hka]]].
  - destruct m as [evs [a | e']]; [discriminate |].
    cbn in Hthrow. injection Hthrow as ->.
    exact (Hm e eq_refl).
  - destruct (Hk a) as [v Hv]. rewrite Hv in Hka. discriminate.
Qed.

End ApiErrorOrigin.

Ltac returns_only :=
  intros ?;
  repeat match goal with
         | |- exists v, (if ?b then _ else _) = ret v => destruct b
         end;
  eexists; reflexivity.

Lemma origin_engine_error (JSON_parse : string -> option JsValue)
  (fetch : string -> RequestInit -> Exchange) (e : Thrown) :
  (forall e', e <> ApiError e') ->
  fromServiceOrArgument JSON_parse fetch (throw e).
Proof. intros Hne e' He'. cbn in He'. injection He' as ->. destruct (Hne e' eq_refl). Qed.

Ltac origin :=
  repeat match goal with
         | |- fromServiceOrArgument _ _ (if ?b then _ else _) => destruct b
         | |- fromServiceOrArgument _ _ (throw (KiteClient.badRequest _)) =>
             apply origin_bad_request
         | |- fromServiceOrArgument _ _ (throw _) =>
             apply origin_engine_error; intros; discriminate
         | |- fromServiceOrArgument _ _ (bind (KiteClient.read ?p ?key) _) =>
             destruct (read_cases p key) as [[_ [? ->]] | [_ ->]];
             [rewrite bind_throw_l | rewrite bind_ret_l; cbv beta]
         | |- fromServiceOrArgument _ _ (bind (KiteClient.encode ?v) _) =>
             destruct (encode_cases v) as [[? [_ ->]] | [_ ->]];
             [rewrite bind_ret_l; cbv beta | rewrite bind_throw_l]
         | |- fromServiceOrArgument _ _ (KiteClient.req _ _ _ _ _ _) =>
             apply origin_request
         | |- fromServiceOrArgument _ _ (bind _ _) =>
             apply origin_then; [| returns_only]
         end.

(** C8, as amended. A [KiteApiError] thrown by a public client method is
    either the service's answer to an HTTP exchange, carrying a failure
    signal (a status outside 2xx, or [success: false] in the body), or the
    rejection of an argument by the method itself: status code 400, thrown
    before any exchange. *)
Theorem C8_api_error_from_service_or_rejected_argument
  (JSON_parse : string -> option JsValue) (fetch : string -> RequestInit -> Exchange)
  (this : KiteClient.t) (call : Call) (e : KiteApiError.t) :
  completion (invoke JSON_parse fetch this call) = Throw (ApiError e) ->
  (exists response responseText,
      serviceResponded fetch (trace (invoke JSON_parse fetch this call))
        response responseText
      /\ failureSignal JSON_parse response responseText)
  \/ (trace (invoke JSON_parse fetch this call) = []
      /\ KiteApiError.statusCode e = JNum 400).
Proof.
  revert e.
  change (fromServiceOrArgument JSON_parse fetch (invoke JSON_parse fetch this call)).
  destruct call; cbn [invoke];
    unfold KiteClient.healthCheck, KiteClient.createWallet, KiteClient.listWallets,
      KiteClient.getWallet, KiteClient.getWalletsByUser, KiteClient.listUsers,
      KiteClient.getUser, KiteClient.getNonce, KiteClient.getGasPrices,
      KiteClient.getGasPrice, KiteClient.createNativeTransfer,
      KiteClient.createERC20Transfer, KiteClient.signTransaction,
      KiteClient.broadcastTransaction;
    cbv zeta; origin.
Qed.

(** ** Concrete calls *)

Section Concrete.

Import Scenario.

(** C1, on the code. The body [signTransaction] builds for a transaction
    that holds a BigInt makes [JSON.stringify] throw a [TypeError] before
    the [try] block: the exception leaves [request] as it is, neither a
    [KiteApiError] nor a [KiteNetworkError], and the timer that was set is
    not cleared. *)
Theorem C1_unserialisable_body_escapes :
  request (parseOnly []) (responds (http 200 "OK") "{}") config
    "POST" "/api/transactions/sign" bigIntBody
  = ([SetTimeout 50], Throw (TypeError "Do not know how to serialize a BigInt"))
  /\ ~ oneOfThreeOutcomes
         (completion
            (request (parseOnly []) (responds (http 200 "OK") "{}") config
               "POST" "/api/transactions/sign" bigIntBody)).
Proof.
  split; [reflexivity |].
  intros [[[v H] _] | [[_ [[e H] _]] | [_ [_ [e H]]]]]; discriminate H.
Qed.

(** C2, as stated, fails twice. An [error] field that is the empty string
    is a string, yet the status text becomes the message; and a body that
    is the text [null] parses, yet [raw] is the response text and not the
    parsed value. *)
Lemma C2_empty_error_and_null_body :
  (completion
     (request (parseOnly [emptyError])
        (responds (http 404 "Not Found") (textOf emptyError)) config
        "GET" "/api/wallets/w1" JUndefined)
   = Throw (ApiError (KiteApiError.new (JNum 404) "Not Found" JUndefined emptyError))
   /\ ~ Spec.httpErrorOutcome (parseOnly [emptyError] (textOf emptyError))
         (http 404 "Not Found") (textOf emptyError)
         (completion
            (request (parseOnly [emptyError])
               (responds (http 404 "Not Found") (textOf emptyError)) config
               "GET" "/api/wallets/w1" JUndefined)))
  /\ (parseOnly [JNull] "null" = Some JNull
      /\ completion
           (request (parseOnly [JNull])
              (responds (http 500 "Internal Server Error") "null") config
              "GET" "/api/wallets/w1" JUndefined)
         = Throw (ApiError
                    (KiteApiError.new (JNum 500) "Internal Server Error" JUndefined
                       (JStr "null")))
      /\ ~ Spec.httpErrorOutcome (parseOnly [JNull] "null")
            (http 500 "Internal Server Error") "null"
            (completion
               (request (parseOnly [JNull])
                  (responds (http 500 "Internal Server Error") "null") config
                  "GET" "/api/wallets/w1" JUndefined))).
Proof.
  split; [split; [reflexivity |] | split; [reflexivity | split; [reflexivity |]]].
  - intros [e [H [_ [Hmessage _]]]].
    vm_compute in H. injection H as <-.
    vm_compute in Hmessage. discriminate Hmessage.
  - intros [e [H [_ [_ Hraw]]]].
    vm_compute in H. injection H as <-.
    vm_compute in Hraw. discriminate Hraw.
Qed.

(** C2 at a 404 whose body names the error. *)
Lemma C2_wallet_not_found :
  exists e,
    completion
      (request (parseOnly [notFound]) (responds (http 404 "Not Found") (textOf notFound))
         config "GET" "/api/wallets/w1" JUndefined)
    = Throw (ApiError e)
    /\ KiteApiError.statusCode e = JNum 404
    /\ KiteApiError.message e = "Wallet not found"
    /\ KiteApiError.raw e = notFound.
Proof.
  apply (C2_http_error_thrown (parseOnly [notFound])
           (responds (http 404 "Not Found") (textOf notFound)) config
           "GET" "/api/wallets/w1" JUndefined None (http 404 "Not Found")
           (textOf notFound)).
  - reflexivity.
  - reflexivity.
  - simpl. lia.
Defined.

(** C3, as stated, fails: with [status: null] in the envelope the field is
    present, yet the error carries the HTTP status. *)
Lemma C3_null_status_field :
  completion
    (request (parseOnly [JObj nullStatus])
       (responds (http 200 "OK") (textOf (JObj nullStatus))) config
       "POST" "/api/transactions/broadcast" (JObj [("signedHex", JStr "0xab")]))
  = Throw (ApiError (KiteApiError.new (JNum 200) "denied" JUndefined (JObj nullStatus)))
  /\ Js.lookup "status" nullStatus = Some JNull
  /\ ~ Spec.declaredFailureOutcome nullStatus (http 200 "OK")
        (completion
           (request (parseOnly [JObj nullStatus])
              (responds (http 200 "OK") (textOf (JObj nullStatus))) config
              "POST" "/api/transactions/broadcast" (JObj [("signedHex", JStr "0xab")]))).
Proof.
  split; [reflexivity | split; [reflexivity |]].
  intros [e [H [Hstatus _]]].
  vm_compute in H. injection H as <-.
  vm_compute in Hstatus. discriminate Hstatus.
Qed.

(** C3 at a 200 whose envelope declares a 404. *)
Lemma C3_declared_not_found :
  exists e,
    completion
      (request (parseOnly [notFound]) (responds (http 200 "OK") (textOf notFound))
         config "GET" "/api/wallets/w1" JUndefined)
    = Throw (ApiError e)
    /\ KiteApiError.statusCode e = JNum 404
    /\ KiteApiError.message e = "Wallet not found"
    /\ KiteApiError.raw e = notFound.
Proof.
  apply (C3_declared_failure_thrown (parseOnly [notFound])
           (responds (http 200 "OK") (textOf notFound)) config
           "GET" "/api/wallets/w1" JUndefined None (http 200 "OK")
           (textOf notFound) eq_refl eq_refl notFound).
  - simpl. lia.
  - reflexivity.
  - reflexivity.
Defined.

(** C4 at the envelope of a wallet: the wallet itself is returned. *)
Lemma C4_wallet_envelope_unwrapped :
  completion
    (request (parseOnly [walletEnvelope])
       (responds (http 200 "OK") (textOf walletEnvelope)) config
       "GET" "/api/wallets/w1" JUndefined)
  = Return bareWallet.
Proof.
  apply (C4_nested_payload_returned (parseOnly [walletEnvelope])
           (responds (http 200 "OK") (textOf walletEnvelope)) config
           "GET" "/api/wallets/w1" JUndefined None (http 200 "OK")
           (textOf walletEnvelope) eq_refl eq_refl
           [("success", JBool true); ("status", JNum 200); ("data", bareWallet)]).
  - simpl. lia.
  - reflexivity.
  - discriminate.
Defined.

(** C5 at the body [not json{]. *)
Lemma C5_not_json_body :
  parseOnly [walletEnvelope] "not json{" = None
  /\ completion
       (request (parseOnly [walletEnvelope]) (responds (http 200 "OK") "not json{")
          config "GET" "/health" JUndefined)
     = Return (JObj []).
Proof.
  split; [reflexivity |].
  apply (C5_unparsable_body_returns_empty_object (parseOnly [walletEnvelope])
           (responds (http 200 "OK") "not json{") config
           "GET" "/health" JUndefined None (http 200 "OK") "not json{"
           eq_refl eq_refl).
  - simpl. lia.
  - reflexivity.
Defined.

(** C6 at a timer of 50 ms that fires: the message holds the 50. *)
Lemma C6_timeout_after_50ms :
  exists e,
    completion
      (request (parseOnly []) (rejects abortError) config
         "POST" "/api/wallets" (JObj [("userEmail", JStr "a@example.com")]))
    = Throw (NetworkError e)
    /\ KiteNetworkError.message e = "Request timed out after 50ms"
    /\ KiteNetworkError.cause e = abortError.
Proof.
  destruct (C6_rejected_exchange_throws_network_error (parseOnly [])
              (rejects abortError) config "POST" "/api/wallets"
              (JObj [("userEmail", JStr "a@example.com")])
              (Some (textOf (JObj [("userEmail", JStr "a@example.com")])))
              abortError eq_refl eq_refl)
    as [e [Hthrown [_ [Habort [_ Hcause]]]]].
  exists e. split; [exact Hthrown |]. split; [| exact Hcause].
  exact (Habort eq_refl).
Defined.

(** C8, as stated, fails: [getWallet] rejects an empty wallet id with a
    [KiteApiError] before any exchange takes place. *)
Lemma C8_empty_wallet_id_rejected_locally :
  invoke (parseOnly []) (rejects fetchFailed) client (GetWallet (JStr ""))
  = ([], Throw (KiteClient.badRequest "walletId is required and must be a string"))
  /\ ~ Spec.apiErrorAfterExchange (parseOnly []) (rejects fetchFailed)
         (invoke (parseOnly []) (rejects fetchFailed) client (GetWallet (JStr ""))).
Proof.
  split; [reflexivity |].
  intros H.
  destruct (H _ eq_refl) as [response [responseText [[url [init [Hin _]]] _]]].
  exact Hin.
Qed.

(** C8 at a [getNonce] the service answers with 404. *)
Lemma C8_get_nonce_answered_404 :
  (exists response responseText,
      serviceResponded (responds (http 404 "Not Found") (textOf notFound))
        (trace (invoke (parseOnly [notFound])
                  (responds (http 404 "Not Found") (textOf notFound)) client
                  (GetNonce (JObj [("walletId", JStr "w1"); ("rpcUrl", JStr "https://rpc")]))))
        response responseText
      /\ failureSignal (parseOnly [notFound]) response responseText)
  \/ (trace (invoke (parseOnly [notFound])
               (responds (http 404 "Not Found") (textOf notFound)) client
               (GetNonce (JObj [("walletId", JStr "w1"); ("rpcUrl", JStr "https://rpc")])))
      = []
      /\ KiteApiError.statusCode
           (KiteApiError.new (JNum 404) "Wallet not found" JUndefined notFound)
         = JNum 400).
Proof.
  apply (C8_api_error_from_service_or_rejected_argument (parseOnly [notFound])
           (responds (http 404 "Not Found") (textOf notFound)) client
           (GetNonce (JObj [("walletId", JStr "w1"); ("rpcUrl", JStr "https://rpc")]))
           (KiteApiError.new (JNum 404) "Wallet not found" JUndefined notFound)).
  reflexivity.
Defined.

(** C9 at a wallet sent without envelope. *)
Lemma C9_bare_wallet_unchanged :
  completion
    (request (parseOnly [bareWallet]) (responds (http 200 "OK") (textOf bareWallet))
       config "GET" "/api/wallets/w1" JUndefined)
  = Return bareWallet.
Proof.
  apply (C9_bare_object_returned_unchanged (parseOnly [bareWallet])
           (responds (http 200 "OK") (textOf bareWallet)) config
           "GET" "/api/wallets/w1" JUndefined None (http 200 "OK")
           (textOf bareWallet) eq_refl eq_refl
           [("walletId", JStr "w1"); ("address", JStr "0xabc")]).
  - simpl. lia.
  - reflexivity.
  - reflexivity.
  - reflexivity.
Defined.

(** C10 at an envelope whose [success] is the number 0. *)
Lemma C10_success_zero_is_success :
  completion
    (request (parseOnly [zeroSuccess]) (responds (http 200 "OK") (textOf zeroSuccess))
       config "GET" "/api/wallets/w1" JUndefined)
  = Return (JStr "payload").
Proof.
  apply (C10_only_false_declares_failure (parseOnly [zeroSuccess])
           (responds (http 200 "OK") (textOf zeroSuccess)) config
           "GET" "/api/wallets/w1" JUndefined None (http 200 "OK")
           (textOf zeroSuccess) eq_refl eq_refl).
  - simpl. lia.
  - discriminate.
Defined.

(** The values of [success] the claim lists, and an envelope without the
    field: each is a success, and the payload is returned. *)
Lemma listed_success_values_are_successes :
  Forall
    (fun envelope =>
       completion
         (request (parseOnly [envelope]) (responds (http 200 "OK") (textOf envelope))
            config "GET" "/api/wallets/w1" JUndefined)
       = Return (JStr "payload"))
    [JObj [("success", JNum 0); ("data", JStr "payload")];
     JObj [("success", JStr "false"); ("data", JStr "payload")];
     JObj [("success", JNull); ("data", JStr "payload")];
     JObj [("success", JStr ""); ("data", JStr "payload")];
     JObj [("data", JStr "payload")]].
Proof. repeat constructor. Qed.

(** The body [signTransaction] builds from a transaction that holds a
    BigInt cannot be serialised: the [TypeError] leaves the public method
    too, after the timer was set and before any exchange. *)
Lemma signTransaction_bigint_type_error :
  KiteClient.signTransaction (parseOnly []) (responds (http 200 "OK") "{}") client
    bigIntBody
  = ([SetTimeout 50], Throw (TypeError "Do not know how to serialize a BigInt")).
Proof. reflexivity. Qed.

End Concrete.

(** * Further properties of the code *)

(** ** Helpers *)

Lemma trace_bind_ret {A B} (m : Eff A) (k : A -> Eff B) :
  (forall a, exists v, k a = ret v) -> trace (bind m k) = trace m.
Proof.
  intros Hk. destruct m as [evs [a | e]]; cbn; [| reflexivity].
  destruct (Hk a) as [v ->]. cbn. apply app_nil_r.
Qed.

Lemma completion_bind_ret {A B} (m : Eff A) (k : A -> Eff B) (e : Thrown) :
  (forall a, exists v, k a = ret v) ->
  completion (bind m k) = Throw e -> completion m = Throw e.
Proof.
  intros Hk H. destruct (completion_bind_inv _ _ _ H) as [Hm | [a [_ Ha]]];
    [exact Hm |].
  destruct (Hk a) as [v Hv]. rewrite Hv in Ha. discriminate.
Qed.

Lemma unwrap_not_nullish (data : JsValue) : Js.nullish (unwrap data) = false.
Proof.
  destruct data as [| | b | n | n | s | items | props]; try reflexivity.
  cbn [unwrap]. destruct (Js.lookup "data" props) as [x |]; [| reflexivity].
  destruct (Js.nullish x) eqn:Hx; [reflexivity | exact Hx].
Qed.

Lemma success_field_dec (data : JsValue) :
  {Js.get data "success" = JBool false} + {Js.get data "success" <> JBool false}.
Proof.
  destruct (Js.isFalse (Js.get data "success")) eqn:E.
  - left. apply isFalse_spec. exact E.
  - right. intros H. apply isFalse_spec in H. congruence.
Qed.

Lemma count_app (kind : Event -> bool) (l1 l2 : list Event) :
  count kind (l1 ++ l2) = (count kind l1 + count kind l2)%nat.
Proof. unfold count. rewrite filter_app, length_app. reflexivity. Qed.

Lemma count_console (kind : Event -> bool) (events : list Event) :
  (forall out text, kind (Console out text) = false) ->
  (forall ev, In ev events -> exists out text, ev = Console out text) ->
  count kind events = 0%nat.
Proof.
  intros Hkind. unfold count. induction events as [| ev rest IH]; intros Hall;
    [reflexivity |].
  cbn [filter]. destruct (Hall ev (or_introl eq_refl)) as [out [text ->]].
  rewrite Hkind. apply IH. intros ev' Hin. apply Hall. right. exact Hin.
Qed.

Section RequestShape.

Variable JSON_parse : string -> option JsValue.
Variable fetch : string -> RequestInit -> Exchange.
Variable config : RequestConfig.
Variables method path : string.
Variable body : JsValue.

Local Abbreviation run := (request JSON_parse fetch config method path body).
Local Abbreviation url := (requestUrl config path).

(** The events of a call whose body is serialised. *)
Lemma request_trace_shape (text : option string) :
  requestBody method body = Some text ->
  exists tail,
    trace run
    = SetTimeout (timeout config)
        :: log config debug (method ++ " " ++ url)
        ++ Fetch url (requestInit config method text) :: ClearTimeout :: tail
    /\ (tail = []
        \/ exists level message,
             (level = warn \/ level = error) /\ tail = log config level message).
Proof.
  intros Hb.
  destruct (fetch url (requestInit config method text))
    as [err | response responseText] eqn:Hf.
  - rewrite (request_rejected _ _ _ _ _ _ _ _ Hb Hf). eexists. split; [reflexivity |].
    right. do 2 eexists. split; [right; reflexivity | reflexivity].
  - destruct (ok response) eqn:Hok.
    + destruct (success_field_dec (safeJsonParse JSON_parse responseText)) as [Hs | Hs].
      * rewrite (request_declared_failure _ _ _ _ _ _ _ _ _ Hb Hf Hok Hs).
        eexists. split; [reflexivity |].
        right. do 2 eexists. split; [left; reflexivity | reflexivity].
      * rewrite (request_success _ _ _ _ _ _ _ _ _ Hb Hf Hok Hs).
        eexists. split; [reflexivity |]. left. reflexivity.
    + rewrite (request_http_error _ _ _ _ _ _ _ _ _ Hb Hf Hok).
      eexists. split; [reflexivity |].
      right. do 2 eexists. split; [left; reflexivity | reflexivity].
Qed.

(** The one exchange of a call, when the sink only writes to the console. *)
Lemma request_fetch_event (u : string) (i : RequestInit) :
  consoleOnly (log config) ->
  In (Fetch u i) (trace run) ->
  exists text,
    requestBody method body = Some text
    /\ u = url /\ i = requestInit config method text.
Proof.
  intros Hsink Hin.
  assert (Hno : forall level message, ~ In (Fetch u i) (log config level message)).
  { intros level message H. destruct (Hsink _ _ _ H) as [out [t Heq]]. discriminate. }
  destruct (requestBody method body) as [text |] eqn:Hb.
  - exists text. split; [reflexivity |].
    destruct (request_trace_shape text Hb) as [tail [Htrace Htail]].
    rewrite Htrace in Hin. cbn [In] in Hin.
    destruct Hin as [H | Hin]; [discriminate |].
    apply in_app_or in Hin. destruct Hin as [Hin | Hin]; [exfalso; eapply Hno; eauto |].
    cbn [In] in Hin. destruct Hin as [H | [H | Hin]]; [| discriminate |].
    + injection H as <- <-. split; reflexivity.
    + exfalso. destruct Htail as [-> | [level [message [_ ->]]]];
        [exact Hin | eapply Hno; eauto].
  - rewrite (request_stringify_throws _ _ _ _ _ _ Hb) in Hin.
    cbn in Hin. destruct Hin as [H | []]. discriminate.
Qed.

(** How a call that returned came to its value. *)
Lemma request_return_inv (v : JsValue) :
  completion run = Return v ->
  exists text response responseText,
    requestBody method body = Some text
    /\ fetch url (requestInit config method text) = Settled response responseText
    /\ ok response = true
    /\ Js.get (safeJsonParse JSON_parse responseText) "success" <> JBool false
    /\ v = unwrap (safeJsonParse JSON_parse responseText).
Proof.
  intros Hv.
  destruct (requestBody method body) as [text |] eqn:Hb.
  2: { rewrite (request_stringify_throws _ _ _ _ _ _ Hb) in Hv. discriminate. }
  destruct (fetch url (requestInit config method text))
    as [err | response responseText] eqn:Hf.
  { rewrite (request_rejected _ _ _ _ _ _ _ _ Hb Hf) in Hv. discriminate. }
  destruct (ok response) eqn:Hok.
  2: { rewrite (request_http_error _ _ _ _ _ _ _ _ _ Hb Hf Hok) in Hv. discriminate. }
  destruct (success_field_dec (safeJsonParse JSON_parse responseText)) as [Hs | Hs].
  { rewrite (request_declared_failure _ _ _ _ _ _ _ _ _ Hb Hf Hok Hs) in Hv.
    discriminate. }
  rewrite (request_success _ _ _ _ _ _ _ _ _ Hb Hf Hok Hs) in Hv.
  cbn in Hv. injection Hv as <-.
  exists text, response, responseText. repeat split; assumption.
Qed.

End RequestShape.

(** ** [request]: what decides the outcome, and what is sent *)

Section RequestExtras.

Variable JSON_parse : string -> option JsValue.
Variable fetch : string -> RequestInit -> Exchange.
Variable config : RequestConfig.
Variables method path : string.
Variable body : JsValue.

Local Abbreviation run := (request JSON_parse fetch config method path body).
Local Abbreviation url := (requestUrl config path).

(** X1. Once the body is serialised, the outcome of [request] is decided
    by the exchange alone: a [KiteNetworkError] exactly when the exchange
    is rejected, a [KiteApiError] exactly when the service answers with a
    failure signal, a returned payload exactly when it answers 2xx without
    [success: false]. *)
Theorem request_outcome_decided_by_exchange (text : option string) :
  requestBody method body = Some text ->
  let exchange := fetch url (requestInit config method text) in
  (throwsNetworkError (completion run) <-> exists err, exchange = Rejected err)
  /\ (throwsApiError (completion run)
      <-> exists response responseText,
            exchange = Settled response responseText
            /\ failureSignal JSON_parse response responseText)
  /\ (returnsPayload (completion run)
      <-> exists response responseText,
            exchange = Settled response responseText
            /\ ok response = true
            /\ Js.get (safeJsonParse JSON_parse responseText) "success" <> JBool false).
Proof.
  intros Hb exchange. unfold exchange, throwsNetworkError, throwsApiError,
    returnsPayload, failureSignal.
  destruct (fetch url (requestInit config method text))
    as [err | response responseText] eqn:Hf.
  - rewrite (request_rejected _ _ _ _ _ _ _ _ Hb Hf). cbn [completion snd].
    repeat split.
    + intros _. eexists; reflexivity.
    + intros _. eexists; reflexivity.
    + intros [e H]; discriminate.
    + intros [r [t [H _]]]; discriminate.
    + intros [v H]; discriminate.
    + intros [r [t [H _]]]; discriminate.
  - destruct (ok response) eqn:Hok.
    + destruct (success_field_dec (safeJsonParse JSON_parse responseText)) as [Hs | Hs].
      * rewrite (request_declared_failure _ _ _ _ _ _ _ _ _ Hb Hf Hok Hs).
        cbn [completion snd]. repeat split.
        -- intros [e H]; discriminate.
        -- intros [e H]; discriminate.
        -- intros _. exists response, responseText. split; [reflexivity |].
           right. exact Hs.
        -- intros _. eexists; reflexivity.
        -- intros [v H]; discriminate.
        -- intros [r [t [H [_ Hn]]]]. injection H as <- <-. contradiction.
      * rewrite (request_success _ _ _ _ _ _ _ _ _ Hb Hf Hok Hs).
        cbn [completion snd]. repeat split.
        -- intros [e H]; discriminate.
        -- intros [e H]; discriminate.
        -- intros [e H]; discriminate.
        -- intros [r [t [H [Hr | Hr]]]]; injection H as <- <-;
             [congruence | contradiction].
        -- intros _. exists response, responseText. repeat split; assumption.
        -- intros _. eexists; reflexivity.
    + rewrite (request_http_error _ _ _ _ _ _ _ _ _ Hb Hf Hok).
      cbn [completion snd]. repeat split.
      * intros [e H]; discriminate.
      * intros [e H]; discriminate.
      * intros _. exists response, responseText. split; [reflexivity |].
        left. exact Hok.
      * intros _. eexists; reflexivity.
      * intros [v H]; discriminate.
      * intros [r [t [H [Hr _]]]]. injection H as <- <-. congruence.
Qed.

(** X2. [request] never returns [null] or [undefined]: a body that is
    [null], or that did not parse, is returned as an empty object, and a
    [null] in the [data] field gives the envelope. *)
Theorem request_never_returns_nullish (v : JsValue) :
  completion run = Return v -> Js.nullish v = false.
Proof.
  intros Hv.
  destruct (request_return_inv _ _ _ _ _ _ _ Hv)
    as [text [response [responseText [_ [_ [_ [_ ->]]]]]]].
  apply unwrap_not_nullish.
Qed.

(** X4. What [request] hands to [fetch] as the body: nothing for a [GET]
    and for a body that is [null] or [undefined], also when a body was
    passed; otherwise the JSON text of the body. *)
Theorem request_body_sent (u : string) (i : RequestInit) :
  consoleOnly (log config) ->
  In (Fetch u i) (trace run) ->
  (method = "GET" \/ Js.nullish body = true -> init_body i = None)
  /\ (method <> "GET" -> Js.nullish body = false ->
      Engine.JSON_stringify body = Some (init_body i)).
Proof.
  intros Hsink Hin.
  destruct (request_fetch_event _ _ _ _ _ _ _ _ Hsink Hin) as [text [Hb [_ ->]]].
  cbn [init_body requestInit]. unfold requestBody in Hb. split.
  - intros [-> | Hnull].
    + rewrite andb_false_r in Hb. injection Hb as <-. reflexivity.
    + rewrite Hnull in Hb. cbn in Hb. injection Hb as <-. reflexivity.
  - intros Hget Hnull. rewrite Hnull in Hb.
    destruct (method =? "GET")%string eqn:E.
    + apply String.eqb_eq in E. contradiction.
    + cbn in Hb. exact Hb.
Qed.

(** The counts of timer and exchange events in the trace of a call. *)
Lemma request_event_counts :
  consoleOnly (log config) ->
  hd_error (trace run) = Some (SetTimeout (timeout config))
  /\ count isSetTimeout (trace run) = 1%nat
  /\ count isFetch (trace run)
     = (match requestBody method body with Some _ => 1 | None => 0 end)%nat
  /\ count isClearTimeout (trace run) = count isFetch (trace run).
Proof.
  intros Hsink.
  assert (Hlog : forall kind level message,
            (forall out text, kind (Console out text) = false) ->
            count kind (log config level message) = 0%nat).
  { intros kind level message Hkind. apply count_console; [exact Hkind |].
    intros ev Hin. exact (Hsink _ _ _ Hin). }
  destruct (requestBody method body) as [text |] eqn:Hb.
  - destruct (request_trace_shape JSON_parse fetch config method path body text Hb)
      as [tail [-> Htail]].
    assert (Htl : forall kind, (forall out text, kind (Console out text) = false) ->
                          count kind tail = 0%nat).
    { intros kind Hkind.
      destruct Htail as [-> | [level [message [_ ->]]]];
        [reflexivity | apply Hlog; exact Hkind]. }
    split; [reflexivity |].
    change (SetTimeout (timeout config)
              :: log config debug (method ++ " " ++ url)
              ++ Fetch url (requestInit config method text) :: ClearTimeout :: tail)
      with ([SetTimeout (timeout config)]
              ++ log config debug (method ++ " " ++ url)%string
              ++ [Fetch url (requestInit config method text); ClearTimeout] ++ tail)%list.
    rewrite !count_app, !Hlog, !Htl by reflexivity.
    repeat split.
  - rewrite (request_stringify_throws _ _ _ _ _ _ Hb). repeat split.
Qed.

(** X5. The timer and the exchange of one call. The first event sets the
    timer to the configured timeout, and it is set once. There is one
    exchange when the body is serialised and none when [JSON.stringify]
    throws; the timer is cleared once per exchange, so a call that ends in
    [JSON.stringify] leaves its timer running. *)
Theorem request_timer_and_exchange :
  consoleOnly (log config) ->
  hd_error (trace run) = Some (SetTimeout (timeout config))
  /\ count isSetTimeout (trace run) = 1%nat
  /\ count isFetch (trace run)
     = (match requestBody method body with Some _ => 1 | None => 0 end)%nat
  /\ count isClearTimeout (trace run) = count isFetch (trace run).
Proof. exact request_event_counts. Qed.

End RequestExtras.

(** X3. The fallback of [healthCheck] is never used: the method performs
    and yields exactly what [request] does for [GET /health]. *)
Theorem healthCheck_is_request (JSON_parse : string -> option JsValue)
  (fetch : string -> RequestInit -> Exchange) (this : KiteClient.t) :
  KiteClient.healthCheck JSON_parse fetch this
  = request JSON_parse fetch (KiteClient.config this) "GET" "/health" JUndefined.
Proof.
  unfold KiteClient.healthCheck, KiteClient.req.
  destruct (request JSON_parse fetch (KiteClient.config this) "GET" "/health" JUndefined)
    as [evs [v | e]] eqn:Hrun; [| reflexivity].
  assert (Hv : Js.nullish v = false).
  { destruct (request_return_inv JSON_parse fetch (KiteClient.config this)
                "GET" "/health" JUndefined v)
      as [text [response [responseText [_ [_ [_ [_ ->]]]]]]].
    - rewrite Hrun. reflexivity.
    - apply unwrap_not_nullish. }
  cbn. unfold Js.coalesce. rewrite Hv, app_nil_r. reflexivity.
Qed.

(** ** The public methods: validation, exchange, route *)

Lemma string_app_nil_r (s : string) : (s ++ "")%string = s.
Proof. induction s as [| c s IH]; cbn; [| rewrite IH]; reflexivity. Qed.

Lemma request_trace_head (JSON_parse : string -> option JsValue)
  (fetch : string -> RequestInit -> Exchange) (config : RequestConfig)
  (method path : string) (body : JsValue) :
  exists rest,
    trace (request JSON_parse fetch config method path body)
    = SetTimeout (timeout config) :: rest.
Proof.
  destruct (requestBody method body) as [text |] eqn:Hb.
  - destruct (request_trace_shape JSON_parse fetch config method path body text Hb)
      as [tail [-> _]].
    eexists. reflexivity.
  - rewrite (request_stringify_throws _ _ _ _ _ _ Hb). eexists. reflexivity.
Qed.

Ltac route_followed :=
  cbn;
  first
    [ reflexivity
    | eexists; split; [eassumption | rewrite ?string_app_nil_r; reflexivity] ].

Ltac early_throw :=
  left; eexists; split;
  [ reflexivity
  | first [ left; eexists; reflexivity
          | right; left; eexists; reflexivity
          | right; right; eexists; reflexivity ] ].

Ltac method_cases :=
  repeat match goal with
         | |- context [bind (KiteClient.read ?p ?key) _] =>
             destruct (read_cases p key) as [[_ [? ->]] | [_ ->]];
             [rewrite bind_throw_l | rewrite bind_ret_l; cbv beta]
         | |- context [bind (KiteClient.encode ?v) _] =>
             destruct (encode_cases v) as [[? [? ->]] | [_ ->]];
             [rewrite bind_ret_l; cbv beta | rewrite bind_throw_l]
         | |- (exists e, (if ?g then _ else _) = _ /\ _) \/ _ => destruct g
         end;
  first
    [ early_throw
    | right; do 3 eexists; split; [reflexivity |]; split; [returns_only | route_followed]
    | right; eexists _, _, ret; split; [symmetry; apply bind_ret_r |];
      split; [intros a; exists a; reflexivity | route_followed] ].

(** A public method ends before any event, with the 400 of a rejected
    argument or with an engine error, or it makes one call to [request],
    with the verb and path of its route, and then only reshapes the value
    returned. *)
Lemma invoke_cases (JSON_parse : string -> option JsValue)
  (fetch : string -> RequestInit -> Exchange) (this : KiteClient.t) (call : Call) :
  (exists e,
      invoke JSON_parse fetch this call = ([], Throw e)
      /\ ((exists message, e = KiteClient.badRequest message)
          \/ (exists message, e = TypeError message)
          \/ (exists message, e = URIError message)))
  \/ (exists path body k,
        invoke JSON_parse fetch this call
        = bind (request JSON_parse fetch (KiteClient.config this)
                  (fst (fst (documentedRoute call))) path body) k
        /\ (forall a, exists v, k a = ret v)
        /\ followsRoute call path).
Proof.
  destruct call; cbn [invoke documentedRoute fst];
    unfold KiteClient.healthCheck, KiteClient.createWallet, KiteClient.listWallets,
      KiteClient.getWallet, KiteClient.getWalletsByUser, KiteClient.listUsers,
      KiteClient.getUser, KiteClient.getNonce, KiteClient.getGasPrices,
      KiteClient.getGasPrice, KiteClient.createNativeTransfer,
      KiteClient.createERC20Transfer, KiteClient.signTransaction,
      KiteClient.broadcastTransaction, KiteClient.req, followsRoute;
    cbv zeta; method_cases.
Qed.

Section PublicMethods.

Variable JSON_parse : string -> option JsValue.
Variable fetch : string -> RequestInit -> Exchange.
Variable this : KiteClient.t.

Local Abbreviation config := (KiteClient.config this).
Local Abbreviation call_ := (invoke JSON_parse fetch this).

(** X6. A public method makes at most one HTTP exchange, whatever the
    outcome: nothing is retried. It sets at most one timer, and clears it
    once for each exchange. *)
Theorem invoke_at_most_one_exchange (call : Call) :
  consoleOnly (log config) ->
  (count isFetch (trace (call_ call)) <= 1)%nat
  /\ (count isSetTimeout (trace (call_ call)) <= 1)%nat
  /\ count isClearTimeout (trace (call_ call)) = count isFetch (trace (call_ call)).
Proof.
  intros Hsink.
  destruct (invoke_cases JSON_parse fetch this call)
    as [[e [-> _]] | [path [body [k [-> [Hk _]]]]]].
  - cbn. repeat split; lia.
  - rewrite (trace_bind_ret _ k Hk).
    destruct (request_event_counts JSON_parse fetch config
                (fst (fst (documentedRoute call))) path body Hsink)
      as [_ [Hset [Hfetch Hclear]]].
    rewrite Hset, Hclear, Hfetch.
    destruct (requestBody (fst (fst (documentedRoute call))) body);
      repeat split; lia.
Qed.

(** X7. A public method either ends before it has done anything (no timer,
    no log line, no exchange) or starts by setting the timer to the
    configured timeout. What ends it early is the [KiteApiError] with
    status 400 of a rejected argument, the [TypeError] of reading a
    property of a [params] that is [null] or [undefined], or the
    [URIError] of [encodeURIComponent] on an identifier that holds a lone
    surrogate. *)
Theorem invoke_rejects_before_any_effect (call : Call) :
  (trace (call_ call) = []
   /\ exists message,
        completion (call_ call) = Throw (KiteClient.badRequest message)
        \/ completion (call_ call) = Throw (TypeError message)
        \/ completion (call_ call) = Throw (URIError message))
  \/ (exists rest, trace (call_ call) = SetTimeout (timeout config) :: rest).
Proof.
  destruct (invoke_cases JSON_parse fetch this call)
    as [[e [-> He]] | [path [body [k [-> [Hk _]]]]]].
  - left. split; [reflexivity |].
    destruct He as [[message ->] | [[message ->] | [message ->]]];
      exists message; cbn; auto.
  - right. rewrite (trace_bind_ret _ k Hk). apply request_trace_head.
Qed.

(** X8. [createWallet] validates nothing. Given [null] or [undefined], the
    read of [params.userEmail] throws a [TypeError] before any event; given
    anything else, also an object without [userEmail], the method goes on
    to [request], never to a 400 of its own. *)
Theorem createWallet_never_rejects (params : JsValue) :
  if Js.nullish params
  then exists message,
         KiteClient.createWallet JSON_parse fetch this params
         = ([], Throw (TypeError message))
  else exists rest,
         trace (KiteClient.createWallet JSON_parse fetch this params)
         = SetTimeout (timeout config) :: rest.
Proof.
  unfold KiteClient.createWallet, KiteClient.req.
  destruct (read_cases params "userEmail") as [[-> [message ->]] | [-> ->]].
  - exists message. reflexivity.
  - rewrite bind_ret_l, trace_bind_ret by (intros a; exists a; reflexivity).
    apply request_trace_head.
Qed.

(** X9. Every exchange of a public method carries the client's API key in
    the [X-API-Key] header and the JSON content type, and goes to the base
    URL, less one trailing slash, followed by a path. *)
Theorem invoke_exchange_carries_api_key (call : Call) (u : string) (i : RequestInit) :
  consoleOnly (log config) ->
  In (Fetch u i) (trace (call_ call)) ->
  init_headers i
  = [("Content-Type", "application/json"); ("X-API-Key", apiKey config)]
  /\ exists path, u = (Engine.stripTrailingSlash (baseUrl config) ++ path)%string.
Proof.
  intros Hsink Hin.
  destruct (invoke_cases JSON_parse fetch this call)
    as [[e [Hc _]] | [path [body [k [Hc [Hk _]]]]]]; rewrite Hc in Hin.
  - destruct Hin.
  - rewrite (trace_bind_ret _ k Hk) in Hin.
    destruct (request_fetch_event _ _ _ _ _ _ _ _ Hsink Hin) as [text [_ [-> ->]]].
    split; [reflexivity |]. exists path. reflexivity.
Qed.

(** X10. The exchange of a public method uses the verb that the README
    documents for it, and the URL handed to [fetch] is the base URL, less
    one trailing slash, followed by the documented endpoint; where the
    endpoint has a path parameter, the [encodeURIComponent] text of the
    method's argument stands in its place. *)
Theorem invoke_follows_documented_route (call : Call) (u : string) (i : RequestInit) :
  consoleOnly (log config) ->
  In (Fetch u i) (trace (call_ call)) ->
  init_method i = fst (fst (documentedRoute call))
  /\ exists path, u = requestUrl config path /\ followsRoute call path.
Proof.
  intros Hsink Hin.
  destruct (invoke_cases JSON_parse fetch this call)
    as [[e [Hc _]] | [path [body [k [Hc [Hk Hroute]]]]]]; rewrite Hc in Hin.
  - destruct Hin.
  - rewrite (trace_bind_ret _ k Hk) in Hin.
    destruct (request_fetch_event _ _ _ _ _ _ _ _ Hsink Hin) as [text [_ [-> ->]]].
    split; [reflexivity |]. exists path. split; [reflexivity | exact Hroute].
Qed.

End PublicMethods.

Lemma truthy_not_nullish (v : JsValue) : Js.truthy v = true -> Js.nullish v = false.
Proof. destruct v; cbn; intros H; try reflexivity; discriminate. Qed.

Lemma truthy_string (v : JsValue) :
  Js.truthy v = true -> Js.isString v = true -> exists s, v = JStr s /\ s <> "".
Proof.
  destruct v; cbn; try discriminate. intros Ht _. exists s. split; [reflexivity |].
  intros ->. discriminate.
Qed.

Lemma badTransactionType_false (v : JsValue) :
  KiteClient.badTransactionType v = false ->
  v = JUndefined \/ v = JNum 0 \/ v = JNum 1 \/ v = JNum 2.
Proof.
  destruct v; cbn; try discriminate; [left; reflexivity |].
  intros H. apply negb_false_iff in H.
  apply orb_prop in H. destruct H as [H | H];
    [apply orb_prop in H; destruct H as [H | H] |];
    apply Z.eqb_eq in H; subst; auto.
Qed.

(** Take the steps and guards of a method apart: a call that ends early
    has no event. *)
Ltac pass_guards Hin :=
  repeat match type of Hin with
         | In _ (trace (bind (KiteClient.read ?p ?key) _)) =>
             let R := fresh "R" in
             destruct (read_cases p key) as [[_ [? R]] | [_ R]]; rewrite R in Hin;
             [exfalso; exact Hin | rewrite bind_ret_l in Hin; cbv beta in Hin]
         | In _ (trace (bind (KiteClient.encode ?v) _)) =>
             let R := fresh "R" in
             destruct (encode_cases v) as [[? [_ R]] | [_ R]]; rewrite R in Hin;
             [rewrite bind_ret_l in Hin; cbv beta in Hin | exfalso; exact Hin]
         | In _ (trace (if ?g then _ else _)) =>
             let G := fresh "G" in
             destruct g eqn:G; [exfalso; exact Hin |]
         end;
  repeat match goal with
         | G : (_ || _) = false |- _ =>
             apply orb_false_elim in G; destruct G
         | G : negb _ = false |- _ => apply negb_false_iff in G
         end.

Section InputGates.

Variable JSON_parse : string -> option JsValue.
Variable fetch : string -> RequestInit -> Exchange.
Variable this : KiteClient.t.

Local Abbreviation call_ := (invoke JSON_parse fetch this).

(** X11. When a public method makes an exchange, none of the inputs that
    the README lists as required for it is [undefined] or [null]; only
    [createWallet] is not checked. *)
Theorem exchange_implies_required_inputs (call : Call) (u : string) (i : RequestInit) :
  In (Fetch u i) (trace (call_ call)) ->
  (exists params, call = CreateWallet params)
  \/ Forall (fun v => Js.nullish v = false) (documentedInputs call).
Proof.
  intros Hin.
  destruct call; cbn [invoke documentedInputs] in *;
    try (left; eexists; reflexivity); right;
    unfold KiteClient.getWallet, KiteClient.getWalletsByUser,
      KiteClient.getUser, KiteClient.getNonce, KiteClient.getGasPrices,
      KiteClient.getGasPrice, KiteClient.createNativeTransfer,
      KiteClient.createERC20Transfer, KiteClient.signTransaction,
      KiteClient.broadcastTransaction in Hin;
    cbv zeta in Hin; pass_guards Hin;
    repeat constructor; try (apply truthy_not_nullish; assumption); assumption.
Qed.

(** X12. A transfer is sent to the service only with a [transactionType]
    that is absent or one of the numbers 0, 1, 2; any other value, [null]
    and the strings of these numbers included, is rejected first. *)
Theorem transfer_exchange_implies_transaction_type (call : Call)
  (params : JsValue) (u : string) (i : RequestInit) :
  call = CreateNativeTransfer params \/ call = CreateERC20Transfer params ->
  In (Fetch u i) (trace (call_ call)) ->
  let transactionType := Js.get params "transactionType" in
  transactionType = JUndefined \/ transactionType = JNum 0
  \/ transactionType = JNum 1 \/ transactionType = JNum 2.
Proof.
  intros [-> | ->] Hin transactionType; cbn [invoke] in Hin;
    unfold KiteClient.createNativeTransfer, KiteClient.createERC20Transfer in Hin;
    cbv zeta in Hin; pass_guards Hin;
    apply badTransactionType_false; assumption.
Qed.

(** X13. [signTransaction] makes an exchange only when [walletId] is a
    non-empty string and [unsignedRaw] is a string that starts with
    [0x]. *)
Theorem sign_exchange_implies_hex (params : JsValue) (u : string) (i : RequestInit) :
  In (Fetch u i) (trace (KiteClient.signTransaction JSON_parse fetch this params)) ->
  exists walletId unsignedRaw,
    Js.get params "walletId" = JStr walletId /\ walletId <> ""
    /\ Js.get params "unsignedRaw" = JStr unsignedRaw
    /\ Js.startsWith "0x" unsignedRaw = true.
Proof.
  intros Hin. unfold KiteClient.signTransaction in Hin. cbv zeta in Hin.
  pass_guards Hin.
  destruct (truthy_string (Js.get params "walletId")) as [w [Hw Hwne]];
    try assumption.
  destruct (truthy_string (Js.get params "unsignedRaw")) as [r [Hr Hrne]];
    try assumption.
  exists w, r. repeat split; try assumption.
  match goal with
  | H : Js.startsWith "0x" _ = true |- _ => rewrite Hr in H; exact H
  end.
Qed.

(** X14. What [listWallets] returns, [data] being what [request] returned
    for [GET /api/wallets]: when [data.wallets] is an array, that array
    with [data.count]; otherwise, when [data.data.wallets] is an array,
    that array with [data.data.count]; otherwise an empty array with the
    count 0. In each case the [wallets] field of the result is an array. *)
Theorem listWallets_returns_an_array (v : JsValue) :
  completion (KiteClient.listWallets JSON_parse fetch this) = Return v ->
  exists data,
    completion (request JSON_parse fetch (KiteClient.config this)
                  "GET" "/api/wallets" JUndefined)
    = Return data
    /\ Js.isArray (Js.get v "wallets") = true
    /\ (Js.isArray (Js.get data "wallets") = true ->
        v = JObj [("wallets", Js.get data "wallets"); ("count", Js.get data "count")])
    /\ (Js.isArray (Js.get data "wallets") = false ->
        Js.isArray (Js.optGet (Js.get data "data") "wallets") = true ->
        Js.nullish (Js.get data "data") = false
        /\ v = JObj [("wallets", Js.get (Js.get data "data") "wallets");
                     ("count", Js.get (Js.get data "data") "count")])
    /\ (Js.isArray (Js.get data "wallets") = false ->
        Js.isArray (Js.optGet (Js.get data "data") "wallets") = false ->
        v = JObj [("wallets", JArr []); ("count", JNum 0)]).
Proof.
  unfold KiteClient.listWallets, KiteClient.req.
  destruct (request JSON_parse fetch (KiteClient.config this)
              "GET" "/api/wallets" JUndefined)
    as [evs [data | e]]; cbn; [| discriminate].
  intros Hv. exists data. split; [reflexivity |].
  destruct (Js.isArray (Js.get data "wallets")) eqn:H1.
  - cbn in Hv. injection Hv as <-.
    repeat split; try discriminate; try reflexivity. exact H1.
  - destruct (Js.isArray (Js.optGet (Js.get data "data") "wallets")) eqn:H2.
    + cbn in Hv. injection Hv as <-.
      unfold Js.optGet in *. destruct (Js.nullish (Js.get data "data")) eqn:Hn;
        [discriminate |].
      repeat split; try discriminate; try reflexivity. exact H2.
    + cbn in Hv. injection Hv as <-.
      repeat split; try discriminate; reflexivity.
Qed.

(** X15. What [listUsers] returns, [data] being what [request] returned
    for [GET /api/users]: when [data.users] is an array, that array with
    [data.count]; otherwise, when [data.data.users] is an array, that
    array with [data.data.count]; otherwise an empty array with the
    count 0. In each case the [users] field of the result is an array. *)
Theorem listUsers_returns_an_array (v : JsValue) :
  completion (KiteClient.listUsers JSON_parse fetch this) = Return v ->
  exists data,
    completion (request JSON_parse fetch (KiteClient.config this)
                  "GET" "/api/users" JUndefined)
    = Return data
    /\ Js.isArray (Js.get v "users") = true
    /\ (Js.isArray (Js.get data "users") = true ->
        v = JObj [("users", Js.get data "users"); ("count", Js.get data "count")])
    /\ (Js.isArray (Js.get data "users") = false ->
        Js.isArray (Js.optGet (Js.get data "data") "users") = true ->
        Js.nullish (Js.get data "data") = false
        /\ v = JObj [("users", Js.get (Js.get data "data") "users");
                     ("count", Js.get (Js.get data "data") "count")])
    /\ (Js.isArray (Js.get data "users") = false ->
        Js.isArray (Js.optGet (Js.get data "data") "users") = false ->
        v = JObj [("users", JArr []); ("count", JNum 0)]).
Proof.
  unfold KiteClient.listUsers, KiteClient.req.
  destruct (request JSON_parse fetch (KiteClient.config this)
              "GET" "/api/users" JUndefined)
    as [evs [data | e]]; cbn; [| discriminate].
  intros Hv. exists data. split; [reflexivity |].
  destruct (Js.isArray (Js.get data "users")) eqn:H1.
  - cbn in Hv. injection Hv as <-.
    repeat split; try discriminate; try reflexivity. exact H1.
  - destruct (Js.isArray (Js.optGet (Js.get data "data") "users")) eqn:H2.
    + cbn in Hv. injection Hv as <-.
      unfold Js.optGet in *. destruct (Js.nullish (Js.get data "data")) eqn:Hn;
        [discriminate |].
      repeat split; try discriminate; try reflexivity. exact H2.
    + cbn in Hv. injection Hv as <-.
      repeat split; try discriminate; reflexivity.
Qed.

End InputGates.
(** ** The constructor *)

Lemma log_console_only (logLevel : LogLevel) : consoleOnly (KiteClient.log logLevel).
Proof.
  intros level message ev. unfold KiteClient.log.
  destruct (LOG_LEVELS level <=? LOG_LEVELS logLevel); cbn; [| intros []].
  intros [<- | []]. do 2 eexists. reflexivity.
Qed.

Lemma constructor_return_inv (cfg : SdkConfiguration.t) (this : KiteClient.t) :
  KiteClient.constructor cfg = Return this ->
  exists url key,
    SdkConfiguration.baseUrl cfg = Some url /\ Engine.trim url <> ""
    /\ SdkConfiguration.apiKey cfg = Some key /\ Engine.trim key <> ""
    /\ KiteClient.config this
       = Build_RequestConfig (Engine.trim url) (Engine.trim key)
           (match SdkConfiguration.timeout cfg with Some ms => ms | None => 30000 end)
           (match SdkConfiguration.logLevel cfg with Some l => l | None => info end)
           (KiteClient.log
              (match SdkConfiguration.logLevel cfg with Some l => l | None => info end)).
Proof.
  unfold KiteClient.constructor.
  destruct (SdkConfiguration.baseUrl cfg) as [url |]; cbn [option_map]; [| discriminate].
  destruct (Engine.trim url) as [| c rest] eqn:Hurl; [discriminate |].
  destruct (SdkConfiguration.apiKey cfg) as [key |]; cbn [option_map]; [| discriminate].
  destruct (Engine.trim key) as [| c' rest'] eqn:Hkey; [discriminate |].
  intros H. injection H as <-.
  exists url, key. rewrite Hurl, Hkey. repeat split; try discriminate; reflexivity.
Qed.

(** X17. Every exchange made through a constructed client carries the
    configured API key, trimmed and not empty, in its [X-API-Key]
    header. *)
Theorem constructed_client_sends_its_key (JSON_parse : string -> option JsValue)
  (fetch : string -> RequestInit -> Exchange) (cfg : SdkConfiguration.t)
  (this : KiteClient.t) (call : Call) (u : string) (i : RequestInit) :
  KiteClient.constructor cfg = Return this ->
  In (Fetch u i) (trace (invoke JSON_parse fetch this call)) ->
  exists key,
    SdkConfiguration.apiKey cfg = Some key
    /\ Engine.trim key <> ""
    /\ In ("X-API-Key", Engine.trim key) (init_headers i).
Proof.
  intros Hnew Hin.
  destruct (constructor_return_inv cfg this Hnew)
    as [url [key [_ [_ [Hkey [Hne Hconfig]]]]]].
  exists key. split; [exact Hkey |]. split; [exact Hne |].
  assert (Hsink : consoleOnly (log (KiteClient.config this))).
  { rewrite Hconfig. apply log_console_only. }
  destruct (invoke_cases JSON_parse fetch this call)
    as [[e [Hc _]] | [path [body [k [Hc [Hk _]]]]]]; rewrite Hc in Hin.
  - destruct Hin.
  - rewrite (trace_bind_ret _ k Hk) in Hin.
    destruct (request_fetch_event _ _ _ _ _ _ _ _ Hsink Hin) as [text [_ [_ ->]]].
    cbn [init_headers requestInit]. rewrite Hconfig. cbn. right. left. reflexivity.
Qed.

(** ** The URL *)

Lemma stripTrailingSlash_app_slash (s : string) :
  Engine.stripTrailingSlash (s ++ "/") = s.
Proof.
  induction s as [| c s IH]; [reflexivity |].
  cbn [append Engine.stripTrailingSlash]. rewrite IH.
  destruct (s ++ "/")%string eqn:E.
  - destruct s; discriminate.
  - rewrite andb_false_r. reflexivity.
Qed.

(** X18. A base URL written with a trailing slash gives the same request
    URL as without it: one trailing slash, and only one, is dropped before
    the path is appended. *)
Theorem request_url_drops_one_trailing_slash (JSON_parse : string -> option JsValue)
  (fetch : string -> RequestInit -> Exchange) (base key : string) (ms : Z)
  (level : LogLevel) (sink : LogLevel -> string -> list Event)
  (method path : string) (body : JsValue) (u : string) (i : RequestInit) :
  consoleOnly sink ->
  In (Fetch u i)
    (trace (request JSON_parse fetch (Build_RequestConfig (base ++ "/") key ms level sink)
              method path body)) ->
  u = (base ++ path)%string.
Proof.
  intros Hsink Hin.
  destruct (request_fetch_event JSON_parse fetch
              (Build_RequestConfig (base ++ "/") key ms level sink)
              method path body u i Hsink Hin) as [text [_ [-> _]]].
  unfold requestUrl. cbn [baseUrl]. rewrite stripTrailingSlash_app_slash. reflexivity.
Qed.

(** ** The classifiers of [KiteApiError] *)

(** X19. The classifiers agree with each other: an auth error and a
    not-found error are client errors, and no status code is both a client
    and a server error. *)
Theorem classifiers_are_consistent (statusCode : Z) :
  implb (KiteApiError.isAuthError statusCode) (KiteApiError.isClientError statusCode)
  = true
  /\ implb (KiteApiError.isNotFound statusCode) (KiteApiError.isClientError statusCode)
     = true
  /\ KiteApiError.isClientError statusCode && KiteApiError.isServerError statusCode
     = false
  /\ KiteApiError.isAuthError statusCode && KiteApiError.isNotFound statusCode = false.
Proof.
  unfold KiteApiError.isAuthError, KiteApiError.isNotFound, KiteApiError.isClientError,
    KiteApiError.isServerError.
  repeat split.
  - destruct (Z.eqb_spec statusCode 401); [subst; reflexivity |].
    destruct (Z.eqb_spec statusCode 403); [subst; reflexivity | reflexivity].
  - destruct (Z.eqb_spec statusCode 404); [subst; reflexivity | reflexivity].
  - destruct (Z.leb_spec 400 statusCode), (Z.ltb_spec statusCode 500),
      (Z.leb_spec 500 statusCode); try reflexivity; lia.
  - destruct (Z.eqb_spec statusCode 401), (Z.eqb_spec statusCode 403),
      (Z.eqb_spec statusCode 404); try reflexivity; lia.
Qed.

Section ClassifierGaps.

Variable JSON_parse : string -> option JsValue.
Variable fetch : string -> RequestInit -> Exchange.
Variable config : RequestConfig.
Variables method path : string.
Variable body : JsValue.
Variable text : option string.
Variable response : Response.
Variable responseText : string.

Hypothesis body_serialised : requestBody method body = Some text.
Hypothesis answered :
  fetch (requestUrl config path) (requestInit config method text)
  = Settled response responseText.

Local Abbreviation run := (request JSON_parse fetch config method path body).

(** X20. For an answer with a status outside 2xx the classifiers of the
    thrown error speak of the HTTP status: it is a client error exactly
    for 400..499, a server error exactly from 500 on. An answer below 200
    or in 300..399 is thrown as a [KiteApiError] that is neither. *)
Theorem http_error_classified_by_status :
  ~ (200 <= status response <= 299) ->
  exists e,
    completion run = Throw (ApiError e)
    /\ KiteApiError.statusCode e = JNum (status response)
    /\ (KiteApiError.isClientError (status response) = true
        <-> 400 <= status response <= 499)
    /\ (KiteApiError.isServerError (status response) = true <-> 500 <= status response)
    /\ (status response < 400 ->
        KiteApiError.isClientError (status response) = false
        /\ KiteApiError.isServerError (status response) = false).
Proof.
  intros Hstatus. apply ok_false_iff in Hstatus.
  rewrite (request_http_error _ _ _ _ _ _ _ _ _ body_serialised answered Hstatus).
  eexists. cbn [completion snd]. split; [reflexivity |]. split; [reflexivity |].
  unfold KiteApiError.isClientError, KiteApiError.isServerError.
  repeat split; lia.
Qed.

(** X21. A 2xx answer that declares [success: false] without a [status]
    field is thrown with the 2xx HTTP status as its status code, so none
    of the four classifiers recognises the error. *)
Theorem declared_failure_without_status_is_unclassified (envelope : JsValue) :
  200 <= status response <= 299 ->
  JSON_parse responseText = Some envelope ->
  Js.get envelope "success" = JBool false ->
  Js.nullish (Js.get envelope "status") = true ->
  exists e,
    completion run = Throw (ApiError e)
    /\ KiteApiError.statusCode e = JNum (status response)
    /\ KiteApiError.isClientError (status response) = false
    /\ KiteApiError.isServerError (status response) = false
    /\ KiteApiError.isAuthError (status response) = false
    /\ KiteApiError.isNotFound (status response) = false.
Proof.
  intros Hstatus Hparse Hsuccess Hnostatus.
  assert (Hok : ok response = true) by (apply ok_true_iff; exact Hstatus).
  assert (Hdata : safeJsonParse JSON_parse responseText = envelope).
  { unfold safeJsonParse. rewrite Hparse. reflexivity. }
  rewrite (request_declared_failure _ _ _ _ _ _ _ _ _ body_serialised answered Hok);
    rewrite Hdata; [| exact Hsuccess].
  eexists. cbn [completion snd]. split; [reflexivity |].
  cbn [KiteApiError.statusCode]. unfold Js.coalesce. rewrite Hnostatus.
  split; [reflexivity |].
  unfold KiteApiError.isClientError, KiteApiError.isServerError,
    KiteApiError.isAuthError, KiteApiError.isNotFound.
  repeat split; lia.
Qed.

End ClassifierGaps.

(** ** [getWallet] end to end *)

(** X22. [getWallet] returns the wallet whether the service sends it bare
    or inside an envelope under [data]: for a wallet object that has no
    [data] and no [success] field of its own, both shapes give the wallet
    itself. The wallet id is a non-empty string that [encodeURIComponent]
    accepts. *)
Theorem getWallet_returns_the_wallet (JSON_parse : string -> option JsValue)
  (fetch : string -> RequestInit -> Exchange) (this : KiteClient.t)
  (walletId segment : string) (response : Response) (responseText : string)
  (parsed : JsValue) (wallet : list (string * JsValue)) :
  walletId <> "" ->
  Engine.encodeURIComponent walletId = Some segment ->
  fetch (requestUrl (KiteClient.config this) ("/api/wallets/" ++ segment))
    (requestInit (KiteClient.config this) "GET" None)
  = Settled response responseText ->
  200 <= status response <= 299 ->
  JSON_parse responseText = Some parsed ->
  Js.lookup "data" wallet = None ->
  Js.lookup "success" wallet = None ->
  parsed = JObj wallet
  \/ (exists envelope,
         parsed = JObj envelope
         /\ Js.get (JObj envelope) "success" <> JBool false
         /\ Js.lookup "data" envelope = Some (JObj wallet)) ->
  completion (KiteClient.getWallet JSON_parse fetch this (JStr walletId))
  = Return (JObj wallet).
Proof.
  intros Hid Hencode Hf Hstatus Hparse Hnodata Hnosuccess Hshape.
  apply ok_true_iff in Hstatus.
  unfold KiteClient.getWallet, KiteClient.req, KiteClient.encode.
  assert (Hguard : negb (Js.truthy (JStr walletId)) || negb (Js.isString (JStr walletId))
                   = false).
  { cbn. destruct (String.eqb_spec walletId ""); [contradiction | reflexivity]. }
  rewrite Hguard. cbn [Js.ToString]. rewrite Hencode, bind_ret_l.
  assert (Hdata : safeJsonParse JSON_parse responseText = parsed).
  { unfold safeJsonParse. rewrite Hparse. reflexivity. }
  assert (Hsuccess : Js.get (safeJsonParse JSON_parse responseText) "success"
                     <> JBool false).
  { rewrite Hdata. destruct Hshape as [-> | [envelope [-> [Hs _]]]]; [| exact Hs].
    cbn [Js.get]. rewrite Hnosuccess. discriminate. }
  rewrite (completion_bind_return _ _ (unwrap parsed)).
  - cbn. f_equal.
    destruct Hshape as [-> | [envelope [-> [_ Hd]]]]; cbn [unwrap].
    + rewrite Hnodata. unfold Js.coalesce. cbn [Js.get]. rewrite Hnodata. reflexivity.
    + rewrite Hd. cbn [Js.nullish]. unfold Js.coalesce. cbn [Js.get].
      rewrite Hnodata. reflexivity.
  - rewrite (request_success JSON_parse fetch (KiteClient.config this) "GET"
               ("/api/wallets/" ++ segment) JUndefined
               None response responseText eq_refl Hf Hstatus Hsuccess).
    rewrite Hdata. reflexivity.
Qed.

(** ** Concrete calls for the further properties *)

Section ConcreteFurther.

Import Scenario.

Local Abbreviation P := (parseOnly [walletEnvelope]).
Local Abbreviation F := (responds (http 200 "OK") (textOf walletEnvelope)).
Local Abbreviation newWallet := (JObj [("userEmail", JStr "a@example.com")]).

(** X1 at a wallet the service sends: the call returns. *)
Lemma answered_wallet_call_returns :
  returnsPayload (completion (request P F config "GET" "/api/wallets/w1" JUndefined)).
Proof.
  destruct (request_outcome_decided_by_exchange P F config "GET" "/api/wallets/w1"
              JUndefined None eq_refl) as [_ [_ H]].
  apply H. exists (http 200 "OK"), (textOf walletEnvelope).
  repeat split. vm_compute. discriminate.
Defined.

(** X2 at the same call: the wallet returned is not nullish. *)
Lemma returned_wallet_is_not_nullish :
  completion (request P F config "GET" "/api/wallets/w1" JUndefined) = Return bareWallet
  /\ Js.nullish bareWallet = false.
Proof.
  split; [reflexivity |].
  apply (request_never_returns_nullish P F config "GET" "/api/wallets/w1" JUndefined
           bareWallet).
  reflexivity.
Defined.

(** X4 at a [POST] with a body: its JSON text is what [fetch] receives. *)
Lemma post_sends_the_json_text :
  Engine.JSON_stringify newWallet
  = Some (init_body (requestInit config "POST" (Some (textOf newWallet)))).
Proof.
  refine (proj2 (request_body_sent P F config "POST" "/api/wallets" newWallet
                   (requestUrl config "/api/wallets")
                   (requestInit config "POST" (Some (textOf newWallet)))
                   (log_console_only info) _) _ _).
  - vm_compute. right; right; left; reflexivity.
  - discriminate.
  - reflexivity.
Defined.

(** X5 at a health check: one exchange, one timer set and cleared. *)
Lemma health_check_counts :
  count isSetTimeout (trace (request P F config "GET" "/health" JUndefined)) = 1%nat
  /\ count isFetch (trace (request P F config "GET" "/health" JUndefined)) = 1%nat
  /\ count isClearTimeout (trace (request P F config "GET" "/health" JUndefined)) = 1%nat.
Proof.
  destruct (request_timer_and_exchange P F config "GET" "/health" JUndefined
              (log_console_only info)) as [_ [Hset [Hfetch Hclear]]].
  split; [exact Hset |]. split; [exact Hfetch |]. rewrite Hclear. exact Hfetch.
Defined.

(** X6 at [listWallets]. *)
Lemma list_wallets_one_exchange :
  (count isFetch (trace (invoke P F client ListWallets)) <= 1)%nat.
Proof.
  exact (proj1 (invoke_at_most_one_exchange P F client ListWallets
                  (log_console_only info))).
Defined.

(** X9 at [getNonce]. *)
Lemma get_nonce_carries_the_key :
  init_headers (requestInit config "POST"
                  (Some (textOf (JObj [("walletId", JStr "w1");
                                       ("rpcUrl", JStr "https://rpc")]))))
  = [("Content-Type", "application/json"); ("X-API-Key", "org-key")].
Proof.
  refine (proj1 (invoke_exchange_carries_api_key P F client
                   (GetNonce (JObj [("walletId", JStr "w1"); ("rpcUrl", JStr "https://rpc")]))
                   (requestUrl config "/api/transactions/nonce")
                   (requestInit config "POST"
                      (Some (textOf (JObj [("walletId", JStr "w1");
                                           ("rpcUrl", JStr "https://rpc")]))))
                   (log_console_only info) _)).
  vm_compute. right; right; left; reflexivity.
Defined.

(** X10 at an email that holds a slash: the slash is escaped. *)
Lemma wallets_by_user_follows_its_route :
  init_method (requestInit config "GET" None) = "GET"
  /\ exists path,
       "https://kite.example.com/api/wallets/users/a%2Fb%40example.com/wallets"
       = requestUrl config path
       /\ followsRoute (GetWalletsByUser (JStr "a/b@example.com")) path.
Proof.
  refine (invoke_follows_documented_route P F client
            (GetWalletsByUser (JStr "a/b@example.com"))
            "https://kite.example.com/api/wallets/users/a%2Fb%40example.com/wallets"
            (requestInit config "GET" None) (log_console_only info) _).
  vm_compute. right; right; left; reflexivity.
Defined.

(** X11 at [getNonce] with both inputs. *)
Lemma get_nonce_inputs_present :
  (exists params,
      GetNonce (JObj [("walletId", JStr "w1"); ("rpcUrl", JStr "https://rpc")])
      = CreateWallet params)
  \/ Forall (fun v => Js.nullish v = false) [JStr "w1"; JStr "https://rpc"].
Proof.
  refine (exchange_implies_required_inputs P F client
            (GetNonce (JObj [("walletId", JStr "w1"); ("rpcUrl", JStr "https://rpc")]))
            (requestUrl config "/api/transactions/nonce")
            (requestInit config "POST"
               (Some (textOf (JObj [("walletId", JStr "w1");
                                    ("rpcUrl", JStr "https://rpc")])))) _).
  vm_compute. right; right; left; reflexivity.
Defined.

Local Abbreviation transfer :=
  (JObj [("walletId", JStr "w1"); ("rpcUrl", JStr "https://rpc"); ("to", JStr "0x01");
         ("value", JStr "0"); ("transactionType", JNum 2)]).

Local Abbreviation transferBody :=
  (JObj [("walletId", JStr "w1"); ("rpcUrl", JStr "https://rpc"); ("to", JStr "0x01");
         ("value", JStr "0"); ("tokenAddress", JUndefined);
         ("transactionType", JNum 2); ("gasData", JUndefined); ("nonce", JUndefined)]).

(** X12 at a native transfer of type 2. *)
Lemma native_transfer_type_2 :
  JNum 2 = JUndefined \/ JNum 2 = JNum 0 \/ JNum 2 = JNum 1 \/ JNum 2 = JNum 2.
Proof.
  refine (transfer_exchange_implies_transaction_type P F client
            (CreateNativeTransfer transfer) transfer
            (requestUrl config "/api/transactions/native")
            (requestInit config "POST" (Some (textOf transferBody)))
            (or_introl eq_refl) _).
  vm_compute. right; right; left; reflexivity.
Defined.

Local Abbreviation signing :=
  (JObj [("walletId", JStr "w1"); ("unsignedRaw", JStr "0xab")]).

(** X13 at a signing request. *)
Lemma sign_inputs_are_hex :
  exists walletId unsignedRaw,
    Js.get signing "walletId" = JStr walletId /\ walletId <> ""
    /\ Js.get signing "unsignedRaw" = JStr unsignedRaw
    /\ Js.startsWith "0x" unsignedRaw = true.
Proof.
  refine (sign_exchange_implies_hex P F client signing
            (requestUrl config "/api/transactions/sign")
            (requestInit config "POST"
               (Some (textOf (JObj [("walletId", JStr "w1"); ("unsignedRaw", JStr "0xab");
                                    ("transaction", JUndefined)])))) _).
  vm_compute. right; right; left; reflexivity.
Defined.

Local Abbreviation walletList :=
  (JObj [("success", JBool true); ("status", JNum 200);
         ("data", JObj [("wallets", JArr [bareWallet]); ("count", JNum 1)])]).

Local Abbreviation userList :=
  (JObj [("users", JArr [JObj [("userId", JStr "u1"); ("email", JStr "a@example.com")]]);
         ("count", JNum 1)]).

(** X14 at a list sent inside an envelope: [request] unwraps it, and the
    array and the count are those of the body. *)
Lemma wallet_list_is_the_one_sent :
  JObj [("wallets", JArr [bareWallet]); ("count", JNum 1)]
  = JObj [("wallets", Js.get (unwrap walletList) "wallets");
          ("count", Js.get (unwrap walletList) "count")].
Proof.
  destruct (listWallets_returns_an_array (parseOnly [walletList])
              (responds (http 200 "OK") (textOf walletList)) client
              (JObj [("wallets", JArr [bareWallet]); ("count", JNum 1)]) eq_refl)
    as [data [Hdata [_ [Hdirect _]]]].
  vm_compute in Hdata. injection Hdata as <-.
  exact (Hdirect eq_refl).
Defined.

(** X15 at a list sent bare. *)
Lemma user_list_is_the_one_sent :
  userList
  = JObj [("users", Js.get userList "users"); ("count", Js.get userList "count")].
Proof.
  destruct (listUsers_returns_an_array (parseOnly [userList])
              (responds (http 200 "OK") (textOf userList)) client userList eq_refl)
    as [data [Hdata [_ [Hdirect _]]]].
  vm_compute in Hdata. injection Hdata as <-.
  exact (Hdirect eq_refl).
Defined.

Local Abbreviation settings :=
  {| SdkConfiguration.baseUrl := Some " https://kite.example.com/ ";
     SdkConfiguration.apiKey := Some (noBreakSpace ++ "org-key" ++ byteOrderMark ++ " ");
     SdkConfiguration.logLevel := None;
     SdkConfiguration.timeout := None |}.

Local Abbreviation built :=
  {| KiteClient.config :=
      Build_RequestConfig "https://kite.example.com/" "org-key" 30000 info
        (KiteClient.log info) |}.

(** X17 at a client built from settings written with spaces, a no-break
    space and a byte order mark around the key. *)
Lemma built_client_sends_trimmed_key :
  KiteClient.constructor settings = Return built
  /\ exists key,
       Some (noBreakSpace ++ "org-key" ++ byteOrderMark ++ " ")%string = Some key
       /\ Engine.trim key <> ""
       /\ In ("X-API-Key", Engine.trim key)
            (init_headers (requestInit (KiteClient.config built) "GET" None)).
Proof.
  split; [reflexivity |].
  refine (constructed_client_sends_its_key P F settings built HealthCheck
            "https://kite.example.com/health"
            (requestInit (KiteClient.config built) "GET" None) eq_refl _).
  vm_compute. right; right; left; reflexivity.
Defined.

(** X18 at a base URL with a trailing slash. *)
Lemma trailing_slash_dropped :
  "https://kite.example.com/health" = ("https://kite.example.com" ++ "/health")%string.
Proof.
  refine (request_url_drops_one_trailing_slash P F "https://kite.example.com" "org-key"
            50 info (KiteClient.log info) "GET" "/health" JUndefined
            "https://kite.example.com/health"
            (Build_RequestInit "GET"
               [("Content-Type", "application/json"); ("X-API-Key", "org-key")] None)
            (log_console_only info) _).
  vm_compute. right; right; left; reflexivity.
Defined.

(** X20 at a 304. *)
Lemma not_modified_is_unclassified :
  exists e,
    completion
      (request (parseOnly []) (responds (http 304 "Not Modified") "") config
         "GET" "/api/wallets" JUndefined)
    = Throw (ApiError e)
    /\ KiteApiError.statusCode e = JNum 304
    /\ KiteApiError.isClientError 304 = false
    /\ KiteApiError.isServerError 304 = false.
Proof.
  destruct (http_error_classified_by_status (parseOnly [])
              (responds (http 304 "Not Modified") "") config
              "GET" "/api/wallets" JUndefined None (http 304 "Not Modified") ""
              eq_refl eq_refl)
    as [e [Hthrown [Hcode [_ [_ Hgap]]]]].
  - simpl. lia.
  - exists e. split; [exact Hthrown |]. split; [exact Hcode |].
    apply Hgap. simpl. lia.
Defined.

Local Abbreviation denied := (JObj [("success", JBool false); ("error", JStr "denied")]).

(** X21 at an envelope that declares a failure without a status. *)
Lemma denied_without_status_is_unclassified :
  exists e,
    completion
      (request (parseOnly [denied]) (responds (http 200 "OK") (textOf denied)) config
         "GET" "/api/wallets" JUndefined)
    = Throw (ApiError e)
    /\ KiteApiError.statusCode e = JNum 200
    /\ KiteApiError.isClientError 200 = false
    /\ KiteApiError.isServerError 200 = false
    /\ KiteApiError.isAuthError 200 = false
    /\ KiteApiError.isNotFound 200 = false.
Proof.
  apply (declared_failure_without_status_is_unclassified (parseOnly [denied])
           (responds (http 200 "OK") (textOf denied)) config
           "GET" "/api/wallets" JUndefined None (http 200 "OK") (textOf denied)
           eq_refl eq_refl denied).
  - simpl. lia.
  - reflexivity.
  - reflexivity.
  - reflexivity.
Defined.

(** X22 at a wallet sent inside an envelope. *)
Lemma get_wallet_from_envelope :
  completion (KiteClient.getWallet P F client (JStr "w1")) = Return bareWallet.
Proof.
  apply (getWallet_returns_the_wallet P F client "w1" "w1" (http 200 "OK")
           (textOf walletEnvelope) walletEnvelope
           [("walletId", JStr "w1"); ("address", JStr "0xabc")]).
  - discriminate.
  - reflexivity.
  - reflexivity.
  - simpl. lia.
  - reflexivity.
  - reflexivity.
  - reflexivity.
  - right. eexists. split; [reflexivity |]. split; [discriminate | reflexivity].
Defined.

(** The engine errors that end a method before any event: a [params] that
    is [null], and an email that holds a lone surrogate. A key that is
    nothing but a no-break space is blank for the constructor. *)
Lemma engine_errors_end_a_call_early :
  KiteClient.createWallet P F client JNull
  = ([], Throw (TypeError "Cannot read properties of null (reading 'userEmail')"))
  /\ KiteClient.getNonce P F client JUndefined
     = ([], Throw (TypeError "Cannot read properties of undefined (reading 'walletId')"))
  /\ KiteClient.getUser P F client (JStr ("a" ++ loneSurrogate ++ "b"))
     = ([], Throw (URIError "URI malformed"))
  /\ KiteClient.constructor
       {| SdkConfiguration.baseUrl := Some "https://kite.example.com";
          SdkConfiguration.apiKey := Some noBreakSpace;
          SdkConfiguration.logLevel := None;
          SdkConfiguration.timeout := None |}
     = Throw (Error "KiteClient: apiKey is required").
Proof. repeat split. Qed.

(** [encodeURIComponent] leaves dots as they are: the path of
    [getWalletsByUser('..')] holds a dot segment. *)
Lemma dot_segment_is_not_escaped :
  In (Fetch "https://kite.example.com/api/wallets/users/../wallets"
        (requestInit config "GET" None))
    (trace (KiteClient.getWalletsByUser P F client (JStr ".."))).
Proof. vm_compute. right; right; left; reflexivity. Qed.

End ConcreteFurther.
